(** * OpenStack reconcile modules of ansible-modules-core

    A shallow embedding of the four modules under [cloud/openstack]:
    [os_orchestration_stack.py], [os_stack.py], [os_group.py] and
    [os_keystone_service.py].

    Each [main] is translated statement by statement into a program over
    the calls it makes to the cloud SDK.  Python exceptions, [SystemExit]
    (raised by [exit_json] and [fail_json]), the clock and [time.sleep]
    are explicit, and [module.params] is the dictionary the source pops
    from and reads.

    How the files are read.  Python accepts neither Heat module as it
    stands: os_orchestration_stack.py has one [)] too many at line 128,
    os_stack.py at lines 126 and 192, so loading either file stops with a
    [SyntaxError] and its [main] never runs.  [OsOrchestrationStack] and
    [OsStack] embed the files with those three characters taken out.
    What is proved there that a run never does holds of the files as they
    stand all the more; what is proved of the outcome of a run is the
    outcome of the file so repaired.  os_group.py is accepted by Python,
    but nests its option table one level too deep (lines 61-66):
    [OsGroup.declared_params] and [OsGroup.pops] are the file as it
    stands, [OsGroup.main] is lines 71-105 on the arguments the table was
    meant to declare.  os_keystone_service.py is embedded as it is. *)

From Stdlib Require Import ZArith Lia List Bool Ascii String.
From stdpp Require Import base option list strings gmap pretty.

Set Warnings "-register-all".

Local Open Scope string_scope.
Local Open Scope list_scope.
Local Open Scope Z_scope.

(** ** Python values *)

(** The values held by [module.params], passed to the SDK and handed to
    [exit_json]: [None], booleans, integers, strings, lists and
    dictionaries (a dictionary as its items, in order). *)
Inductive value : Type :=
| VNone
| VBool (b : bool)
| VInt (z : Z)
| VStr (s : string)
| VList (l : list value)
| VDict (d : list (string * value)).

(** [a == b] on values. *)
Fixpoint value_eqb (a b : value) {struct a} : bool :=
  let fix list_eqb (l1 l2 : list value) {struct l1} : bool :=
    match l1, l2 with
    | [], [] => true
    | x :: l1', y :: l2' => value_eqb x y && list_eqb l1' l2'
    | _, _ => false
    end in
  let fix dict_eqb (d1 d2 : list (string * value)) {struct d1} : bool :=
    match d1, d2 with
    | [], [] => true
    | (k1, x) :: d1', (k2, y) :: d2' =>
        String.eqb k1 k2 && value_eqb x y && dict_eqb d1' d2'
    | _, _ => false
    end in
  match a, b with
  | VNone, VNone => true
  | VBool x, VBool y => Bool.eqb x y
  | VInt x, VInt y => Z.eqb x y
  | VStr x, VStr y => String.eqb x y
  | VList x, VList y => list_eqb x y
  | VDict x, VDict y => dict_eqb x y
  | _, _ => false
  end.

(** Truth value of a Python object, as [if x:] and [not x] read it. *)
Definition truthy (v : value) : bool :=
  match v with
  | VNone => false
  | VBool b => b
  | VInt z => negb (z =? 0)
  | VStr s => negb (String.eqb s "")
  | VList l => match l with [] => false | _ => true end
  | VDict d => match d with [] => false | _ => true end
  end.

(** [str.lower()] on a byte string: the letters [A]..[Z] are mapped to
    [a]..[z], every other byte is kept. *)
Definition ascii_lower (c : ascii) : ascii :=
  let n := nat_of_ascii c in
  if ((65 <=? n) && (n <=? 90))%nat then ascii_of_nat (n + 32) else c.

Fixpoint lower (s : string) : string :=
  match s with
  | EmptyString => EmptyString
  | String c s' => String (ascii_lower c) (lower s')
  end.

(** [sep.join(l)] *)
Fixpoint join (sep : string) (l : list string) : string :=
  match l with
  | [] => ""
  | [x] => x
  | x :: l' => x +:+ sep +:+ join sep l'
  end.

(** ** Exceptions *)

(** The exception classes the modules meet.  The first five are raised by
    the interpreter on the module's own code; [OpenStackCloudException]
    is shade's class, the one [os_group] and [os_keystone_service] catch;
    [SdkException] stands for every other class an SDK call can raise
    (those of heatclient, keystoneauth, yaml, ...), named by [cls]. *)
Inductive exn : Type :=
| KeyError (key : string)
| NameError (name : string)
| UnboundLocalError (name : string)
| TypeError (msg : string)
| AttributeError (msg : string)
| OpenStackCloudException (msg : string) (extra_data : value)
| SdkException (cls : string) (msg : string).

(** [e.message] (Python 2): the single argument the exception was built
    with. *)
Definition message (e : exn) : string :=
  match e with
  | KeyError key => key
  | NameError name => "global name '" +:+ name +:+ "' is not defined"
  | UnboundLocalError name =>
      "local variable '" +:+ name +:+ "' referenced before assignment"
  | TypeError msg => msg
  | AttributeError msg => msg
  | OpenStackCloudException msg _ => msg
  | SdkException _ msg => msg
  end.

(** [e.extra_data], an attribute of shade's exceptions only. *)
Definition extra_data_of (e : exn) : value :=
  match e with
  | OpenStackCloudException _ d => d
  | _ => VNone
  end.

(** [isinstance(e, shade.OpenStackCloudException)] *)
Definition is_cloud_exception (e : exn) : bool :=
  match e with
  | OpenStackCloudException _ _ => true
  | _ => false
  end.

(** ** The cloud, as the modules see it *)

(** A heatclient [Stack] object: what [heat.stacks.list()] yields and
    [heat.stacks.get] returns; [to_dict] is [stack_to_dict]. *)
Record stack : Type := {
  stack_id : string;
  stack_name : string;
  stack_status : string
}.

Definition identifier (s : stack) : string :=
  stack_name s +:+ "/" +:+ stack_id s.

Definition stack_to_dict (s : stack) : value :=
  VDict [("id", VStr (stack_id s));
         ("stack_name", VStr (stack_name s));
         ("stack_status", VStr (stack_status s))].

(** An identity group, with the attributes [os_group] reads. *)
Record group : Type := {
  group_id : string;
  group_name : string;
  group_description : value
}.

Definition group_to_dict (g : group) : value :=
  VDict [("id", VStr (group_id g));
         ("name", VStr (group_name g));
         ("description", group_description g)].

(** A Keystone service, with the keys [os_keystone_service] reads:
    [service['id']], [service['name']], [service['type']] and
    [service['description']]. *)
Record service : Type := {
  svc_id : string;
  svc_name : string;
  svc_type : string;
  svc_description : string
}.

(** The calls the modules make to the SDK, with their arguments. *)
Inductive call : Type :=
| shade_openstack_cloud
| shade_operator_cloud
| cloud_heat_client
| set_tenant_id
| cloud_get_template_contents (template_file template_url files : value)
| heat_stacks_list
| heat_stacks_create (name : string) (template files parameters tags : value)
| heat_stacks_get (ref : string)
| found_stack_get (ref : string)
| heat_stacks_template (ref : string)
| heat_stacks_update (ref : string) (name : string)
    (template files parameters tags : value)
| heat_stacks_delete (ref : string)
| cloud_get_group (name : string)
| cloud_create_group (name : string) (description : value)
| cloud_update_group (gid : string) (description : value)
| cloud_delete_group (gid : string)
| cloud_get_service (name_or_id : string)
| cloud_create_service (name ty description : string)
| cloud_delete_service (name_or_id : string).

(** What each call returns when it does not raise. *)
Definition reply (c : call) : Type :=
  match c with
  | cloud_get_template_contents _ _ _ => (value * value)%type
  | heat_stacks_list => list stack
  | heat_stacks_create _ _ _ _ _ => string
  | heat_stacks_get _ => stack
  | found_stack_get _ => stack
  | heat_stacks_template _ => value
  | cloud_get_group _ => option group
  | cloud_create_group _ _ => group
  | cloud_get_service _ => option service
  | cloud_create_service _ _ _ => service
  | _ => unit
  end.

(** Whether a call asks the service to create, change or delete a
    resource. *)
Definition mutates (c : call) : bool :=
  match c with
  | heat_stacks_create _ _ _ _ _ | heat_stacks_update _ _ _ _ _ _
  | heat_stacks_delete _
  | cloud_create_group _ _ | cloud_update_group _ _ | cloud_delete_group _
  | cloud_create_service _ _ _ | cloud_delete_service _ => true
  | _ => false
  end.

(** ** Module programs *)

(** What a module hands to [exit_json] or [fail_json]: the keyword
    arguments, and whether it is a failure. *)
Record output : Type := {
  failed : bool;
  kwargs : list (string * value)
}.

(** A module body: it returns, raises, leaves through [SystemExit], calls
    the SDK, reads the clock ([time.time()]) or sleeps ([time.sleep]). *)
Inductive prog (A : Type) : Type :=
| Ret (a : A)
| Raise (e : exn)
| SystemExit (o : output)
| Call (c : call) (k : reply c -> prog A)
| Clock (k : Z -> prog A)
| Sleep (d : Z) (k : prog A).

Arguments Ret {A} a.
Arguments Raise {A} e.
Arguments SystemExit {A} o.
Arguments Call {A} c k.
Arguments Clock {A} k.
Arguments Sleep {A} d k.

Fixpoint bind {A B : Type} (p : prog A) (f : A -> prog B) : prog B :=
  match p with
  | Ret a => f a
  | Raise e => Raise e
  | SystemExit o => SystemExit o
  | Call c k => Call c (fun r => bind (k r) f)
  | Clock k => Clock (fun t => bind (k t) f)
  | Sleep d k => Sleep d (bind k f)
  end.

#[global] Instance prog_ret : MRet prog := @Ret.
#[global] Instance prog_bind : MBind prog := fun A B f p => bind p f.

Definition sdk (c : call) : prog (reply c) := Call c Ret.
Definition time_time : prog Z := Clock Ret.
Definition time_sleep (d : Z) : prog unit := Sleep d (Ret tt).

(** [module.exit_json] and [module.fail_json], with their keyword
    arguments *)
Definition exit_json {A : Type} (kw : list (string * value)) : prog A :=
  SystemExit {| failed := false; kwargs := kw |}.
Definition fail_json {A : Type} (kw : list (string * value)) : prog A :=
  SystemExit {| failed := true; kwargs := kw |}.

(** [d.pop(k)] and [d[k]] on [module.params] *)
Definition dict_pop (d : gmap string value) (k : string)
  : prog (value * gmap string value) :=
  match d !! k with
  | Some v => Ret (v, delete k d)
  | None => Raise (KeyError k)
  end.

Definition getitem (d : gmap string value) (k : string) : prog value :=
  match d !! k with
  | Some v => Ret v
  | None => Raise (KeyError k)
  end.

(** [v.lower()] *)
Definition str_lower (v : value) : prog string :=
  match v with
  | VStr s => Ret (lower s)
  | _ => Raise (AttributeError "object has no attribute 'lower'")
  end.

(** [type(v).__name__] *)
Definition type_name (v : value) : string :=
  match v with
  | VNone => "NoneType"
  | VBool _ => "bool"
  | VInt _ => "int"
  | VStr _ => "str"
  | VList _ => "list"
  | VDict _ => "dict"
  end.

(** [','.join(v)]: the items of a list, the characters of a string, the
    keys of a dictionary in the order it yields them.  The first item
    that is no string is refused with its position and its type. *)
Definition str_join (sep : string) (v : value) : prog value :=
  match v with
  | VList l =>
      (fix go (l : list value) (i : nat) (acc : list string) : prog value :=
         match l with
         | [] => Ret (VStr (join sep (rev acc)))
         | VStr s :: l' => go l' (S i) (s :: acc)
         | x :: _ =>
             Raise (TypeError ("sequence item " +:+ pretty i
                               +:+ ": expected string, " +:+ type_name x
                               +:+ " found"))
         end) l O []
  | VStr s => Ret (VStr (join sep ((fun c => String c "") <$> list_ascii_of_string s)))
  | VDict d => Ret (VStr (join sep (fst <$> d)))
  | _ => Raise (TypeError "can only join an iterable")
  end.

(** [time.time() + v] *)
Definition add_time (t : Z) (v : value) : prog Z :=
  match v with
  | VInt z => Ret (t + z)
  | VBool b => Ret (t + (if b then 1 else 0))
  | _ => Raise (TypeError "unsupported operand type(s) for +")
  end.

(** ** The simulated cloud *)

(** A stack as the Heat service holds it.  The running action ([CREATE]
    or [UPDATE]) is in progress until the clock reaches [hs_ready]. *)
Record heat_stack : Type := {
  hs_id : string;
  hs_name : string;
  hs_template : value;
  hs_parameters : value;
  hs_tags : value;
  hs_action : string;
  hs_ready : Z
}.

(** The state of the service the SDK talks to.  [build_time] is how long
    Heat takes over a create or an update, [parse_template] how it reads a
    submitted template, [template_contents] what [get_template_contents]
    finds behind the file or URL it is given. *)
Record cloud_state : Type := {
  stacks : list heat_stack;
  groups : list group;
  services : list service;
  next_id : nat;
  build_time : Z;
  parse_template : value -> value;
  template_contents : value * value
}.

Definition with_stacks (r : cloud_state) (l : list heat_stack) (n : nat)
  : cloud_state :=
  {| stacks := l; groups := groups r; services := services r; next_id := n;
     build_time := build_time r; parse_template := parse_template r;
     template_contents := template_contents r |}.

Definition with_groups (r : cloud_state) (l : list group) (n : nat)
  : cloud_state :=
  {| stacks := stacks r; groups := l; services := services r; next_id := n;
     build_time := build_time r; parse_template := parse_template r;
     template_contents := template_contents r |}.

Definition with_services (r : cloud_state) (l : list service) (n : nat)
  : cloud_state :=
  {| stacks := stacks r; groups := groups r; services := l; next_id := n;
     build_time := build_time r; parse_template := parse_template r;
     template_contents := template_contents r |}.

(** The [Stack] object the client builds from the service's record at
    time [t]. *)
Definition snapshot (t : Z) (s : heat_stack) : stack :=
  {| stack_id := hs_id s;
     stack_name := hs_name s;
     stack_status :=
       hs_action s +:+ (if t <? hs_ready s then "_IN_PROGRESS" else "_COMPLETE") |}.

(** A stack is addressed by its id or by its [name/id] identifier. *)
Definition refers (ref : string) (s : heat_stack) : bool :=
  String.eqb ref (hs_id s) || String.eqb ref (hs_name s +:+ "/" +:+ hs_id s).

Definition fresh_id (n : nat) : string := "id-" +:+ pretty n.

Definition not_found (what ref : string) : exn :=
  SdkException "HTTPNotFound" (what +:+ " " +:+ ref +:+ " could not be found").

Definition named_or_id (key : string) (n i : string) : bool :=
  String.eqb key n || String.eqb key i.

Definition find_group (key : string) (l : list group) : option group :=
  find (fun g => named_or_id key (group_name g) (group_id g)) l.

Definition find_service (key : string) (l : list service) : option service :=
  find (fun s => named_or_id key (svc_name s) (svc_id s)) l.

(** The answer of the simulated service to a call at time [t], and its
    state afterwards. *)
Definition respond (c : call) (t : Z) (r : cloud_state)
  : (exn + reply c) * cloud_state :=
  match c return (exn + reply c) * cloud_state with
  | shade_openstack_cloud => (inr tt, r)
  | shade_operator_cloud => (inr tt, r)
  | cloud_heat_client => (inr tt, r)
  | set_tenant_id => (inr tt, r)
  | cloud_get_template_contents _ _ _ => (inr (template_contents r), r)
  | heat_stacks_list => (inr (snapshot t <$> stacks r), r)
  | heat_stacks_create name template files parameters tags =>
      let s := {| hs_id := fresh_id (next_id r); hs_name := name;
                  hs_template := parse_template r template;
                  hs_parameters := parameters; hs_tags := tags;
                  hs_action := "CREATE"; hs_ready := t + build_time r |} in
      (inr (hs_id s), with_stacks r (stacks r ++ [s]) (S (next_id r)))
  | heat_stacks_get ref =>
      match find (refers ref) (stacks r) with
      | Some s => (inr (snapshot t s), r)
      | None => (inl (not_found "Stack" ref), r)
      end
  | found_stack_get ref =>
      match find (refers ref) (stacks r) with
      | Some s => (inr (snapshot t s), r)
      | None => (inl (not_found "Stack" ref), r)
      end
  | heat_stacks_template ref =>
      match find (refers ref) (stacks r) with
      | Some s => (inr (hs_template s), r)
      | None => (inl (not_found "Stack" ref), r)
      end
  | heat_stacks_update ref name template files parameters tags =>
      match find (refers ref) (stacks r) with
      | Some _ =>
          let upd s :=
            if refers ref s then
              {| hs_id := hs_id s; hs_name := hs_name s;
                 hs_template := parse_template r template;
                 hs_parameters := parameters; hs_tags := tags;
                 hs_action := "UPDATE"; hs_ready := t + build_time r |}
            else s in
          (inr tt, with_stacks r (upd <$> stacks r) (next_id r))
      | None => (inl (not_found "Stack" ref), r)
      end
  | heat_stacks_delete ref =>
      match find (refers ref) (stacks r) with
      | Some _ =>
          (inr tt,
           with_stacks r (filter (fun s => refers ref s = false) (stacks r))
             (next_id r))
      | None => (inl (not_found "Stack" ref), r)
      end
  | cloud_get_group name => (inr (find_group name (groups r)), r)
  | cloud_create_group name description =>
      let g := {| group_id := fresh_id (next_id r); group_name := name;
                  group_description := description |} in
      (inr g, with_groups r (groups r ++ [g]) (S (next_id r)))
  | cloud_update_group gid description =>
      let upd g :=
        if String.eqb gid (group_id g) then
          {| group_id := group_id g; group_name := group_name g;
             group_description := description |}
        else g in
      (inr tt, with_groups r (upd <$> groups r) (next_id r))
  | cloud_delete_group gid =>
      (inr tt,
       with_groups r (filter (fun g => String.eqb gid (group_id g) = false)
                        (groups r)) (next_id r))
  | cloud_get_service key => (inr (find_service key (services r)), r)
  | cloud_create_service name ty description =>
      let s := {| svc_id := fresh_id (next_id r); svc_name := name;
                  svc_type := ty; svc_description := description |} in
      (inr s, with_services r (services r ++ [s]) (S (next_id r)))
  | cloud_delete_service key =>
      (inr tt,
       with_services r
         (filter (fun s => named_or_id key (svc_name s) (svc_id s) = false)
            (services r)) (next_id r))
  end.

(** ** Running a module *)

(** What the run leaves behind: every SDK call, with the exception it
    raised if it did, and every sleep. *)
Inductive event : Type :=
| called (c : call) (raised : option exn)
| slept (d : Z).

(** The world a module runs in: the clock, the transport faults still to
    come (one entry per SDK call; [Some e] makes that call raise [e]
    before it reaches the service), the service and the trace so far. *)
Record world : Type := {
  now : Z;
  faults : list (option exn);
  cloud : cloud_state;
  log : list event
}.

Inductive result (A : Type) : Type :=
| Returned (a : A)
| Raised (e : exn)
| Exited (o : output).

Arguments Returned {A} a.
Arguments Raised {A} e.
Arguments Exited {A} o.

(** The world after an SDK call: the call is in the trace with the
    exception it raised, if any, its fault entry is used up, and the
    service is in state [r].  The clock is where it was: a call takes no
    simulated time. *)
Definition answered (c : call) (raised : option exn) (r : cloud_state)
    (w : world) : world :=
  {| now := now w; faults := tail (faults w); cloud := r;
     log := log w ++ [called c raised] |}.

(** The world after [time.sleep(d)].  The simulated clock counts whole
    time units and only a sleep moves it: an SDK call takes no time
    ([answered] keeps [now]).  [time.time()] of the source is the wall
    clock, which also runs on during a call; a bound on how late the
    clock can be at the end of a wait would rest on this idealisation,
    a bound on how many turns the wait makes does not (a faster clock
    only ends it sooner). *)
Definition tick (d : Z) (w : world) : world :=
  {| now := now w + d; faults := faults w; cloud := cloud w;
     log := log w ++ [slept d] |}.

Fixpoint run {A : Type} (p : prog A) (w : world) : result A * world :=
  match p with
  | Ret a => (Returned a, w)
  | Raise e => (Raised e, w)
  | SystemExit o => (Exited o, w)
  | Call c k =>
      match head (faults w) with
      | Some (Some e) => (Raised e, answered c (Some e) (cloud w) w)
      | _ =>
          match respond c (now w) (cloud w) with
          | (inl e, r) => (Raised e, answered c (Some e) r w)
          | (inr x, r) => run (k x) (answered c None r w)
          end
      end
  | Clock k => run (k (now w)) w
  | Sleep d k => run k (tick d w)
  end.

(** How a module ends: through [exit_json], through [fail_json], with an
    exception nobody caught (a traceback), or by falling off the end of
    [main]. *)
Inductive outcome : Type :=
| ExitJson (kw : list (string * value))
| FailJson (kw : list (string * value))
| Traceback (e : exn)
| NoOutput.

Definition outcome_of_exit (o : output) : outcome :=
  if failed o then FailJson (kwargs o) else ExitJson (kwargs o).

(** [try: body except ...: ...] around the body of [main].  [SystemExit]
    is no [Exception] and passes through; [on_exception] says what
    becomes of every other exception, caught or not. *)
Definition try_except (body : prog unit) (on_exception : exn -> outcome)
    (w : world) : outcome * world :=
  match run body w with
  | (Exited o, w') => (outcome_of_exit o, w')
  | (Raised e, w') => (on_exception e, w')
  | (Returned _, w') => (NoOutput, w')
  end.

(** [kw.get(k)] on keyword arguments. *)
Fixpoint kw_get (k : string) (kw : list (string * value)) : option value :=
  match kw with
  | [] => None
  | (k', v) :: kw' => if String.eqb k k' then Some v else kw_get k kw'
  end.

(** The [changed] verdict a run reports, if it reports one. *)
Definition changed_of (o : outcome) : option value :=
  match o with
  | ExitJson kw => kw_get "changed" kw
  | FailJson kw => kw_get "changed" kw
  | _ => None
  end.

(** The SDK calls of a trace, and those of them a fault or the service
    answered with an exception. *)
Definition calls_of (l : list event) : list call :=
  omap (fun ev => match ev with called c _ => Some c | slept _ => None end) l.

Definition raised_in (l : list event) : list exn :=
  omap (fun ev => match ev with called _ r => r | slept _ => None end) l.

(** ** What the two Heat modules share *)

(** The names the Heat modules read from their module globals.
    [HAVE_DEPS] and [HAS_SHADE] record whether the imports at the head of
    the file succeeded.  [stack_name] and [_set_tenant_id] are read by
    [main] but bound nowhere in the files, so whether they are bound (and
    to what) is left to the star imports at the foot of the file: [None]
    and [false] stand for an unbound name.  [yaml.load] and [json.dumps]
    are library functions. *)
Record imports : Type := {
  HAVE_DEPS : bool;
  HAS_SHADE : bool;
  global_stack_name : option string;
  set_tenant_id_bound : bool;
  yaml_load : string -> exn + value;
  json_dumps : value -> string
}.

(** Reading the global [stack_name]. *)
Definition read_stack_name (G : imports) : prog string :=
  match global_stack_name G with
  | Some s => Ret s
  | None => Raise (NameError "stack_name")
  end.

(** Reading a local variable that an earlier statement may not have
    assigned. *)
Definition read_local {A : Type} (name : string) (v : option A) : prog A :=
  match v with
  | Some x => Ret x
  | None => Raise (UnboundLocalError name)
  end.

(** Truth value of [found_stack], which is [None] or a [Stack] object, and
    access to the attributes of the object. *)
Definition is_set {A : Type} (o : option A) : bool :=
  match o with Some _ => true | None => false end.

Definition deref {A : Type} (o : option A) : prog A :=
  match o with
  | Some x => Ret x
  | None => Raise (AttributeError "'NoneType' object has no attribute")
  end.

Definition when (b : bool) (p : prog unit) : prog unit :=
  if b then p else Ret tt.

Inductive target : Type := present | absent.

Definition target_str (t : target) : string :=
  match t with present => "present" | absent => "absent" end.

Definition opt_value {A : Type} (f : A -> value) (o : option A) : value :=
  match o with Some x => f x | None => VNone end.

Definition dict_value (d : list (string * string)) : value :=
  VDict ((fun kv => (kv.1, VStr kv.2)) <$> d).

Definition strs_value (l : list string) : value := VList (VStr <$> l).

(** The lookup loop (os_orchestration_stack.py lines 150-155, os_stack.py
    lines 153-158):
<<
    for stack in stacks:
        if stack.stack_name.lower() == module.params['name'].lower():
            found_stack = stack
            break
>>
    [None] is [found_stack = None] left untouched. *)
Fixpoint find_stack (module_params : gmap string value) (stacks : list stack)
  : prog (option stack) :=
  match stacks with
  | [] => Ret None
  | stack :: rest =>
      a ← str_lower (VStr (stack_name stack));
      n ← getitem module_params "name";
      b ← str_lower n;
      if String.eqb a b then Ret (Some stack)
      else find_stack module_params rest
  end.

(** The polling loop (os_orchestration_stack.py lines 167-173 and 200-206,
    os_stack.py lines 178-184 and 212-218):
<<
    while time.time() < expire:
        if _stack_dict['stack_status'] != in_progress:
            break
        time.sleep(2)
        found_stack = heat.stacks.get(ref)
        _stack_dict = found_stack.to_dict()
>>
    [ref_of] gives the reference the loop fetches by: the id of the
    created stack, or the identifier of the stack fetched last.  The loop
    is unfolded [fuel] times; [poll] below gives it enough. *)
Fixpoint wait_while (fuel : nat) (expire : Z) (in_progress : string)
    (ref_of : stack -> string) (found_stack : stack) : prog stack :=
  t ← time_time;
  if t <? expire then
    if negb (String.eqb (stack_status found_stack) in_progress) then
      Ret found_stack
    else
      match fuel with
      | O => Ret found_stack
      | S fuel' =>
          time_sleep 2;;
          found_stack ← sdk (heat_stacks_get (ref_of found_stack));
          wait_while fuel' expire in_progress ref_of found_stack
      end
  else Ret found_stack.

(** The guarded wait (os_orchestration_stack.py lines 165-173):
<<
    if module.params['wait']:
        expire = time.time() + module.params['timeout']
        while time.time() < expire: ...
>>
    Every turn of the loop sleeps 2, so [timeout] turns are never
    needed. *)
Definition poll (module_params : gmap string value) (in_progress : string)
    (ref_of : stack -> string) (found_stack : stack) : prog stack :=
  wait ← getitem module_params "wait";
  if truthy wait then
    t ← time_time;
    timeout ← getitem module_params "timeout";
    expire ← add_time t timeout;
    wait_while (Z.to_nat (expire - t)) expire in_progress ref_of found_stack
  else Ret found_stack.

(** ** os_orchestration_stack.py *)

Module OsOrchestrationStack.

(** The arguments of the module after [AnsibleModule] has checked and
    coerced them (lines 119-133); the cloud and authentication
    arguments, which go to shade untouched, are left out.  The file is
    read as if the second closing parenthesis of line 128 were not
    there: with it the file is no Python program, and nothing below
    runs. *)
Record args : Type := {
  name : string;
  template : option string;
  parameters : option (list (string * string));
  tags : option string;
  wait : bool;
  timeout : Z;
  state : target
}.

(** [module.params] *)
Definition params (a : args) : gmap string value :=
  list_to_map
    [("login_tenant_id", VNone);
     ("name", VStr (name a));
     ("template", opt_value VStr (template a));
     ("parameters", opt_value dict_value (parameters a));
     ("tags", opt_value VStr (tags a));
     ("wait", VBool (wait a));
     ("timeout", VInt (timeout a));
     ("state", VStr (target_str (state a)))].

(** [yaml.load(template_path)] *)
Definition load_template (G : imports) (template_path : value) : prog value :=
  match template_path with
  | VStr s =>
      match yaml_load G s with
      | inr t => Ret t
      | inl e => Raise e
      end
  | _ => Raise (AttributeError "object has no attribute 'read'")
  end.

(** Lines 158-174. *)
Definition create_arm (G : imports) (module_params : gmap string value)
    (template_path parameters tags : value) : prog unit :=
  stack_name ← read_stack_name G;
  _stack ← sdk (heat_stacks_create stack_name template_path VNone
                  parameters tags);
  found_stack ← sdk (heat_stacks_get _stack);
  _stack_dict ← poll module_params "CREATE_IN_PROGRESS" (fun _ => _stack)
                  found_stack;
  exit_json [("changed", VBool true); ("info", stack_to_dict _stack_dict)].

(** Lines 178-209. *)
Definition update_arm (G : imports) (module_params : gmap string value)
    (template_path parameters tags : value) (found_stack : option stack)
  : prog unit :=
  template ← load_template G template_path;
  let template_json := json_dumps G template in
  found_stack ← deref found_stack;
  found_stack ← sdk (found_stack_get (identifier found_stack));
  let _stack_dict := found_stack in
  t ← sdk (heat_stacks_template (identifier found_stack));
  let stack_template := json_dumps G t in
  let changed := negb (String.eqb stack_template template_json) in
  when changed
    (stack_name ← read_stack_name G;
     sdk (heat_stacks_update (identifier found_stack) stack_name
            template_path VNone parameters tags);;
     found_stack ← sdk (heat_stacks_get (identifier found_stack));
     _stack_dict ← poll module_params "UPDATE_IN_PROGRESS" identifier
                     found_stack;
     exit_json [("changed", VBool changed);
                ("info", stack_to_dict _stack_dict)]);;
  exit_json [("changed", VBool changed);
             ("info", stack_to_dict _stack_dict)].

(** Lines 145-215: the body of the [try] once the five arguments are
    popped. *)
Definition reconcile (G : imports) (module_params : gmap string value)
    (name parameters tags template_path state : value) : prog unit :=
  sdk shade_openstack_cloud;;
  sdk cloud_heat_client;;
  (if set_tenant_id_bound G then sdk set_tenant_id
   else Raise (NameError "_set_tenant_id"));;
  stacks ← sdk heat_stacks_list;
  found_stack ← find_stack module_params stacks;
  let is_present := value_eqb state (VStr "present") in
  when (is_present && negb (is_set found_stack))
    (create_arm G module_params template_path parameters tags);;
  when (is_present && is_set found_stack)
    (update_arm G module_params template_path parameters tags found_stack);;
  when (negb is_present && is_set found_stack)
    (found_stack ← deref found_stack;
     sdk (heat_stacks_delete (identifier found_stack));;
     exit_json [("changed", VBool true)]);;
  exit_json [("changed", VBool false)].

(** The body of the [try] (lines 139-215). *)
Definition body (G : imports) (module_params : gmap string value)
  : prog unit :=
  '(name, module_params) ← dict_pop module_params "name";
  '(parameters, module_params) ← dict_pop module_params "parameters";
  '(tags, module_params) ← dict_pop module_params "tags";
  '(template_path, module_params) ← dict_pop module_params "template";
  '(state, module_params) ← dict_pop module_params "state";
  reconcile G module_params name parameters tags template_path state.

(** [main]: the guard on the imports, the [try] and its
    [except Exception, e] (lines 135-218), of the file without the
    unmatched [)] of line 128. *)
Definition main (G : imports) (a : args) (w : world) : outcome * world :=
  if negb (HAVE_DEPS G) then
    (FailJson [("msg", VStr "shade is required for this module")], w)
  else
    try_except (body G (params a))
      (fun e => FailJson [("msg", VStr ("Heat error: " +:+ message e))]) w.

End OsOrchestrationStack.

(** ** os_stack.py *)

Module OsStack.

(** The arguments after [AnsibleModule] has checked and coerced them
    (lines 115-134); what [AnsibleModule] makes of [required_if] is not
    modelled.  The file is read as if the second closing parenthesis of
    lines 126 and 192 were not there: with them the file is no Python
    program, and nothing below runs. *)
Record args : Type := {
  name : string;
  template_file : option string;
  template_url : option string;
  files : list string;
  parameters : option (list (string * string));
  tags : option (list string);
  wait : bool;
  timeout : Z;
  state : target
}.

(** [module.params] *)
Definition params (a : args) : gmap string value :=
  list_to_map
    [("login_tenant_id", VNone);
     ("name", VStr (name a));
     ("template_file", opt_value VStr (template_file a));
     ("template_url", opt_value VStr (template_url a));
     ("files", strs_value (files a));
     ("parameters", opt_value dict_value (parameters a));
     ("tags", opt_value strs_value (tags a));
     ("wait", VBool (wait a));
     ("timeout", VInt (timeout a));
     ("state", VStr (target_str (state a)))].

(** Lines 163-185. *)
Definition create_arm (G : imports) (module_params : gmap string value)
    (template_file template_url files parameters tags : value) : prog unit :=
  '(tpl_files, template) ←
     sdk (cloud_get_template_contents template_file template_url files);
  stack_name ← read_stack_name G;
  _stack ← sdk (heat_stacks_create stack_name template tpl_files
                  parameters tags);
  found_stack ← sdk (heat_stacks_get _stack);
  _stack_dict ← poll module_params "CREATE_IN_PROGRESS" (fun _ => _stack)
                  found_stack;
  exit_json [("changed", VBool true); ("info", stack_to_dict _stack_dict)].

(** Lines 189-221.  [template] and [tpl_files] are the locals that only
    the other arm assigns. *)
Definition update_arm (G : imports) (module_params : gmap string value)
    (template tpl_files : option value) (parameters tags : value)
    (found_stack : option stack) : prog unit :=
  found_stack ← deref found_stack;
  found_stack ← sdk (found_stack_get (identifier found_stack));
  let _stack_dict := found_stack in
  stack_template ← sdk (heat_stacks_template (identifier found_stack));
  template ← read_local "template" template;
  let changed := negb (value_eqb template stack_template) in
  when changed
    (stack_name ← read_stack_name G;
     tpl_files ← read_local "tpl_files" tpl_files;
     sdk (heat_stacks_update (identifier found_stack) stack_name
            template tpl_files parameters tags);;
     found_stack ← sdk (heat_stacks_get (identifier found_stack));
     _stack_dict ← poll module_params "UPDATE_IN_PROGRESS" identifier
                     found_stack;
     exit_json [("changed", VBool changed);
                ("info", stack_to_dict _stack_dict)]);;
  exit_json [("changed", VBool changed);
             ("info", stack_to_dict _stack_dict)].

(** Lines 149-227: the body of the [try] once the arguments are
    popped. *)
Definition reconcile (G : imports) (module_params : gmap string value)
    (name parameters tags template_file template_url files state : value)
  : prog unit :=
  sdk shade_openstack_cloud;;
  sdk cloud_heat_client;;
  stacks ← sdk heat_stacks_list;
  found_stack ← find_stack module_params stacks;
  let is_present := value_eqb state (VStr "present") in
  when is_present
    (when (negb (is_set found_stack))
       (create_arm G module_params template_file template_url files
          parameters tags);;
     when (is_set found_stack)
       (update_arm G module_params None None parameters tags found_stack));;
  when (negb is_present && is_set found_stack)
    (found_stack ← deref found_stack;
     sdk (heat_stacks_delete (identifier found_stack));;
     exit_json [("changed", VBool true)]);;
  exit_json [("changed", VBool false)].

(** The body of the [try] (lines 140-227). *)
Definition body (G : imports) (module_params : gmap string value)
  : prog unit :=
  '(name, module_params) ← dict_pop module_params "name";
  '(parameters, module_params) ← dict_pop module_params "parameters";
  '(tags, module_params) ← dict_pop module_params "tags";
  tags ← str_join "," tags;
  '(template_file, module_params) ← dict_pop module_params "template_file";
  '(template_url, module_params) ← dict_pop module_params "template_url";
  '(files, module_params) ← dict_pop module_params "files";
  '(state, module_params) ← dict_pop module_params "state";
  reconcile G module_params name parameters tags template_file template_url
    files state.

(** [main]: the guard on the import, the [try] and its
    [except Exception, e] (lines 136-230), of the file without the
    unmatched [)] of lines 126 and 192. *)
Definition main (G : imports) (a : args) (w : world) : outcome * world :=
  if negb (HAS_SHADE G) then
    (FailJson [("msg", VStr "shade is required for this module")], w)
  else
    try_except (body G (params a))
      (fun e => FailJson [("msg", VStr ("Heat error: " +:+ message e))]) w.

End OsStack.

(** ** os_group.py *)

Module OsGroup.


(** Lines 74-76.  The three pops stand before the [try]: what they raise
    is caught by nothing. *)
Definition pops (module_params : gmap string value)
  : prog (value * value * value * gmap string value) :=
  '(name, module_params) ← dict_pop module_params "name";
  '(description, module_params) ← dict_pop module_params "description";
  '(state, module_params) ← dict_pop module_params "state";
  Ret (name, description, state, module_params).

(** The arguments the table was meant to declare, and [module.params]
    as it would then be. *)
Record args : Type := {
  name : string;
  description : option string;
  state : target
}.

Definition params (a : args) : gmap string value :=
  list_to_map
    [("name", VStr (name a));
     ("description", opt_value VStr (description a));
     ("state", VStr (target_str (state a)))].

(** The body of the [try] (lines 79-102), on the values of [name],
    [description] and [state]. *)
Definition body (name : string) (description state : value) : prog unit :=
  sdk shade_openstack_cloud;;
  group ← sdk (cloud_get_group name);
  if value_eqb state (VStr "present") then
    '(changed, group) ←
      match group with
      | None =>
          group ← sdk (cloud_create_group name description);
          Ret (true, group)
      | Some group =>
          if negb (value_eqb (group_description group) description) then
            sdk (cloud_update_group (group_id group) description);;
            Ret (true, group)
          else Ret (false, group)
      end;
    exit_json [("changed", VBool changed); ("group", group_to_dict group)]
  else if value_eqb state (VStr "absent") then
    changed ←
      match group with
      | None => Ret false
      | Some group =>
          sdk (cloud_delete_group (group_id group));;
          Ret true
      end;
    exit_json [("changed", VBool changed)]
  else Ret tt.

(** Lines 71-105 on the arguments of [args], the pops of lines 74-76
    done: only shade's exceptions are caught.  This is the module with
    its option table put right; as the file stands, [pops] ends every run
    before the [try] is entered. *)
Definition main (HAS_SHADE : bool) (a : args) (w : world) : outcome * world :=
  if negb HAS_SHADE then
    (FailJson [("msg", VStr "shade is required for this module")], w)
  else
    try_except
      (body (name a) (opt_value VStr (description a))
         (VStr (target_str (state a))))
      (fun e =>
         if is_cloud_exception e then
           FailJson [("msg", VStr (message e));
                     ("extra_data", extra_data_of e)]
         else Traceback e) w.

End OsGroup.

(** ** os_keystone_service.py *)

Module OsKeystoneService.

Record args : Type := {
  name : string;
  service_type : string;
  description : string;
  state : target;
  check_mode : bool
}.

(** [new_service_kwargs] (lines 108-112) *)
Record service_kwargs : Type := {
  kw_name : string;
  kw_service_type : string;
  kw_description : string
}.

(** Lines 76-79. *)
Definition compare_services (service_a : service) (service_b : service_kwargs)
  : bool :=
  String.eqb (svc_name service_a) (kw_name service_b)
  && String.eqb (svc_type service_a) (kw_service_type service_b)
  && String.eqb (svc_description service_a) (kw_description service_b).

(** The body of the [try] (lines 106-144). *)
Definition body (a : args) : prog unit :=
  let service_name := name a in
  let state := target_str (state a) in
  sdk shade_operator_cloud;;
  service ← sdk (cloud_get_service service_name);
  let new_service_kwargs :=
    {| kw_name := service_name; kw_service_type := service_type a;
       kw_description := description a |} in
  if String.eqb state "present" then
    match service with
    | None =>
        when (check_mode a) (exit_json [("changed", VBool true)]);;
        new_service ← sdk (cloud_create_service
                             (kw_name new_service_kwargs)
                             (kw_service_type new_service_kwargs)
                             (kw_description new_service_kwargs));
        exit_json [("changed", VBool true); ("result", VStr "created");
                   ("id", VStr (svc_id new_service))]
    | Some service =>
        if compare_services service new_service_kwargs then
          exit_json [("changed", VBool false); ("result", VStr "success");
                     ("id", VStr (svc_id service))]
        else
          exit_json [("changed", VBool false); ("result", VStr "exists");
                     ("msg", VStr "Keystone services cannot be updated");
                     ("id", VStr (svc_id service))]
    end
  else if String.eqb state "absent" then
    when (check_mode a) (exit_json [("changed", VBool (is_set service))]);;
    match service with
    | Some _ =>
        sdk (cloud_delete_service service_name);;
        exit_json [("changed", VBool true); ("result", VStr "deleted")]
    | None =>
        exit_json [("changed", VBool false); ("result", VStr "success")]
    end
  else Ret tt.

(** [main] (lines 95-152): shade's exceptions are caught, and reported
    as a change when the module runs in check mode. *)
Definition main (HAS_SHADE : bool) (a : args) (w : world) : outcome * world :=
  if negb HAS_SHADE then
    (FailJson [("msg", VStr "shade is required for this module")], w)
  else
    try_except (body a)
      (fun e =>
         if is_cloud_exception e then
           if check_mode a then
             ExitJson [("changed", VBool true);
                       ("msg", VStr ("exception: " +:+ message e))]
           else FailJson [("msg", VStr ("exception: " +:+ message e))]
         else Traceback e) w.

End OsKeystoneService.

(** ** Vocabulary of the statements, and the inputs they are run on *)

(** The part of the trace a run has added. *)
Definition since (w w' : world) : list event :=
  drop (length (log w)) (log w').

(** Two runs of a module in succession, the second in the world the first
    left. *)
Definition twice {A : Type} (main : A -> world -> outcome * world)
    (a : A) (w : world) : outcome * outcome * world :=
  let r1 := main a w in
  let r2 := main a r1.2 in
  (r1.1, r2.1, r2.2).

(** A module reports an error [e] as a failure when it ends in
    [fail_json] with a message that ends in [e]'s own. *)
Definition fails_with_message (out : outcome) (e : exn) : Prop :=
  exists prefix kw,
    out = FailJson kw /\ kw_get "msg" kw = Some (VStr (prefix +:+ message e)).

(** A plain rendering of values, put in the place of [json.dumps] where a
    statement is run; [yaml.load] is then the parser that reads every
    text as one scalar. *)
Definition dquote : string := String (ascii_of_nat 34) EmptyString.

Fixpoint render (v : value) : string :=
  let fix items (l : list value) : string :=
    match l with
    | [] => ""
    | [x] => render x
    | x :: l' => render x +:+ ", " +:+ items l'
    end in
  let fix pairs (d : list (string * value)) : string :=
    match d with
    | [] => ""
    | [(k, x)] => dquote +:+ k +:+ dquote +:+ ": " +:+ render x
    | (k, x) :: d' =>
        dquote +:+ k +:+ dquote +:+ ": " +:+ render x +:+ ", " +:+ pairs d'
    end in
  match v with
  | VNone => "null"
  | VBool b => if b then "true" else "false"
  | VInt z => pretty z
  | VStr s => dquote +:+ s +:+ dquote
  | VList l => "[" +:+ items l +:+ "]"
  | VDict d => "{" +:+ pairs d +:+ "}"
  end.

(** The module globals as the files leave them: the imports succeed, and
    nothing binds [stack_name] or [_set_tenant_id].  [yaml_load] and
    [json_dumps] are stand-ins for the two library functions (every text
    is one scalar, values are rendered by [render]); they are used where
    a statement is run on an input, and what is proved of
    [update_arm] in general is proved for every [yaml_load] and
    [json_dumps]. *)
Definition as_written : imports :=
  {| HAVE_DEPS := true; HAS_SHADE := true;
     global_stack_name := None; set_tenant_id_bound := false;
     yaml_load := fun s => inr (VStr s); json_dumps := render |}.

(** The same with [_set_tenant_id] supplied, and with both names
    supplied, [stack_name] holding [n]. *)
Definition with_tenant_id : imports :=
  {| HAVE_DEPS := true; HAS_SHADE := true;
     global_stack_name := None; set_tenant_id_bound := true;
     yaml_load := fun s => inr (VStr s); json_dumps := render |}.

Definition with_both_names (n : string) : imports :=
  {| HAVE_DEPS := true; HAS_SHADE := true;
     global_stack_name := Some n; set_tenant_id_bound := true;
     yaml_load := fun s => inr (VStr s); json_dumps := render |}.

(** A cloud that holds the given stacks, groups and services; Heat takes
    [build] time units over a create or an update, and stores templates
    as [as_written] parses them. *)
Definition cloud_with (l : list heat_stack) (gs : list group)
    (ss : list service) (build : Z) : cloud_state :=
  {| stacks := l; groups := gs; services := ss; next_id := 0;
     build_time := build;
     parse_template := fun v => match v with VStr s => VStr s | _ => v end;
     template_contents :=
       (VDict [], VDict [("heat_template_version", VStr "2015-04-30")]) |}.

(** A run starts at time 0 with an empty trace. *)
Definition boot (fs : list (option exn)) (r : cloud_state) : world :=
  {| now := 0; faults := fs; cloud := r; log := [] |}.

(** A stack that finished its create long ago. *)
Definition settled (i n : string) (t : value) : heat_stack :=
  {| hs_id := i; hs_name := n; hs_template := t; hs_parameters := VNone;
     hs_tags := VNone; hs_action := "CREATE"; hs_ready := 0 |}.

Definition sample_template : string := "heat_template_version: 2015-04-30".

Definition orchestration_args (n : string) (st : target) (limit : Z)
  : OsOrchestrationStack.args :=
  {| OsOrchestrationStack.name := n;
     OsOrchestrationStack.template := Some sample_template;
     OsOrchestrationStack.parameters := Some [("key_name", "my-key")];
     OsOrchestrationStack.tags := None;
     OsOrchestrationStack.wait := true;
     OsOrchestrationStack.timeout := limit;
     OsOrchestrationStack.state := st |}.

Definition stack_args (n : string) (st : target) (limit : Z) : OsStack.args :=
  {| OsStack.name := n;
     OsStack.template_file := Some "../templates/sample.yml.j2";
     OsStack.template_url := None;
     OsStack.files := [];
     OsStack.parameters := Some [("key_name", "my-key")];
     OsStack.tags := Some ["web"];
     OsStack.wait := true;
     OsStack.timeout := limit;
     OsStack.state := st |}.

Definition heat_failure (m : string) : outcome :=
  FailJson [("msg", VStr ("Heat error: " +:+ m))].

(** A trace is orderly for a result when no call in it raised, or when
    the one call that raised is its last event and the result is that
    exception. *)
Definition orderly {A : Type} (r : result A) (evs : list event) : Prop :=
  raised_in evs = [] \/
  exists evs0 c e,
    evs = evs0 ++ [called c (Some e)] /\ raised_in evs0 = [] /\ r = Raised e.

(** One invocation of one of the four modules. *)
Inductive invocation : Type :=
| os_orchestration_stack (G : imports) (a : OsOrchestrationStack.args)
| os_stack (G : imports) (a : OsStack.args)
| os_group (HAS_SHADE : bool) (a : OsGroup.args)
| os_keystone_service (HAS_SHADE : bool) (a : OsKeystoneService.args).

Definition invoke (i : invocation) (w : world) : outcome * world :=
  match i with
  | os_orchestration_stack G a => OsOrchestrationStack.main G a w
  | os_stack G a => OsStack.main G a w
  | os_group h a => OsGroup.main h a w
  | os_keystone_service h a => OsKeystoneService.main h a w
  end.

(** What is left of [module.params] once a Heat module has popped its
    arguments. *)
Definition orchestration_rest (a : OsOrchestrationStack.args)
  : gmap string value :=
  list_to_map [("login_tenant_id", VNone);
               ("wait", VBool (OsOrchestrationStack.wait a));
               ("timeout", VInt (OsOrchestrationStack.timeout a))].

Definition stack_rest (a : OsStack.args) : gmap string value :=
  list_to_map [("login_tenant_id", VNone);
               ("wait", VBool (OsStack.wait a));
               ("timeout", VInt (OsStack.timeout a))].

(** A run that fails and reports no [changed] verdict. *)
Definition fails_without_verdict (out : outcome) : Prop :=
  match out with
  | FailJson kw => kw_get "changed" kw = None
  | _ => False
  end.


Definition stack_with (a : OsStack.args)
    (p : option (list (string * string))) (t : option (list string))
  : OsStack.args :=
  {| OsStack.name := OsStack.name a;
     OsStack.template_file := OsStack.template_file a;
     OsStack.template_url := OsStack.template_url a;
     OsStack.files := OsStack.files a;
     OsStack.parameters := p;
     OsStack.tags := t;
     OsStack.wait := OsStack.wait a;
     OsStack.timeout := OsStack.timeout a;
     OsStack.state := OsStack.state a |}.

(** What a run reports and the calls it made. *)
Definition report (x : outcome * world) : outcome * list call :=
  (x.1, calls_of (log x.2)).

(** The result a body leaves, as [main] would report it. *)
Definition verdict {A : Type} (r : result A) : option value :=
  match r with
  | Exited o => kw_get "changed" (kwargs o)
  | _ => None
  end.

(** Inputs for [os_keystone_service]. *)
Definition glance (i ty d : string) : service :=
  {| svc_id := i; svc_name := "glance"; svc_type := ty; svc_description := d |}.

Definition keystone_args (st : target) (check : bool)
  : OsKeystoneService.args :=
  {| OsKeystoneService.name := "glance";
     OsKeystoneService.service_type := "image";
     OsKeystoneService.description := "Glance image service";
     OsKeystoneService.state := st;
     OsKeystoneService.check_mode := check |}.

Definition unauthorized : exn :=
  OpenStackCloudException "The request you have made requires authentication."
    VNone.

(** An empty cloud in which Heat takes [build] time units over a create,
    and a cloud that holds one stack, created long ago from
    [sample_template]. *)
Definition empty_cloud (build : Z) : world :=
  boot [] (cloud_with [] [] [] build).

Definition cloud_of_one (n : string) : world :=
  boot [] (cloud_with [settled "id-7" n (VStr sample_template)] [] [] 4).

Definition unset_tenant_id : outcome :=
  heat_failure "global name '_set_tenant_id' is not defined".

Definition unset_stack_name : outcome :=
  heat_failure "global name 'stack_name' is not defined".

Definition created (status : string) : outcome :=
  ExitJson [("changed", VBool true);
            ("info", VDict [("id", VStr "id-0");
                            ("stack_name", VStr "teststack");
                            ("stack_status", VStr status)])].

(** A result that is no return: an exception, or an exit that reports
    [changed=true]. *)
Definition halts_changed {A : Type} (r : result A) : Prop :=
  match r with
  | Returned _ => False
  | Raised _ => True
  | Exited o => kw_get "changed" (kwargs o) = Some (VBool true)
  end.

(** A program that never leaves through [SystemExit]. *)
Definition no_exit {A : Type} (p : prog A) : Prop :=
  forall w o, (run p w).1 <> Exited o.

(** The same world with another trace. *)
Definition with_log (l : list event) (w : world) : world :=
  {| now := now w; faults := faults w; cloud := cloud w; log := l |}.

(** The same arguments, in check mode or not. *)
Definition keystone_with_check (a : OsKeystoneService.args) (check : bool)
  : OsKeystoneService.args :=
  {| OsKeystoneService.name := OsKeystoneService.name a;
     OsKeystoneService.service_type := OsKeystoneService.service_type a;
     OsKeystoneService.description := OsKeystoneService.description a;
     OsKeystoneService.state := OsKeystoneService.state a;
     OsKeystoneService.check_mode := check |}.

(** A trace in which no call creates, changes or deletes anything. *)
Definition harmless (evs : list event) : Prop :=
  Forall (fun c => mutates c = false) (calls_of evs).

(** A runner that does not read the trace. *)
Definition framed (f : world -> outcome * world) : Prop :=
  forall w,
    f w = ((f (with_log [] w)).1,
           with_log (log w ++ log (f (with_log [] w)).2)
             (f (with_log [] w)).2).

(** What the polling loop leaves in the trace: sleeps of 2 and fetches of
    the stack. *)
Definition polling_event (ev : event) : Prop :=
  ev = slept 2 \/ exists ref raised, ev = called (heat_stacks_get ref) raised.

(** ** [_get_heat_client] of os_orchestration_stack.py (lines 101-110)

    The helper calls three names that the file binds nowhere:
    [_get_ksclient], [_get_endpoint] and [client].  Each is given here as
    unbound ([None]) or bound to the program its call runs: a program
    that may call the SDK, raise, or leave through [exit_json] or
    [fail_json] itself.  A Keystone client is known by its
    [auth_token]. *)
Record keystone_client : Type := { auth_token : string }.

(** A Heat client, as [client.Client('1', endpoint=..., token=...)] is
    asked to build it. *)
Record heat_client : Type := {
  api_version : string;
  endpoint : string;
  token : string
}.

Record connectors : Type := {
  _get_ksclient : option (prog keystone_client);
  _get_endpoint : option (keystone_client -> prog string);
  client_Client : option (heat_client -> prog heat_client)
}.

(** Calling a global function: [NameError] when the name is unbound,
    else what the call does. *)
Definition call_global {A : Type} (name : string) (f : option (prog A))
  : prog A :=
  match f with
  | None => Raise (NameError name)
  | Some p => p
  end.

(** The body of the [try] (lines 103-106). *)
Definition connect (E : connectors) : prog heat_client :=
  _ksclient ← call_global "_get_ksclient" (_get_ksclient E);
  let token := auth_token _ksclient in
  endpoint ← call_global "_get_endpoint"
               (option_map (fun f => f _ksclient) (_get_endpoint E));
  call_global "client"
    (option_map
       (fun f => f {| api_version := "1"; endpoint := endpoint;
                      token := token |})
       (client_Client E)).

(** Lines 101-110.  [except Exception] catches what the body raises and
    lets [SystemExit] pass; [fail_json] leaves through [SystemExit], so
    the [return heat] of the handler is never reached. *)
Definition _get_heat_client (E : connectors) (w : world)
  : result heat_client * world :=
  match run (connect E) w with
  | (Raised e, w') =>
      run (fail_json
             [("msg", VStr ("Error in connecting to heat: " +:+ message e))])
        w'
  | r => r
  end.

(** Inputs for the polling loop: a stack whose create is over at [ready],
    the world that holds it, and what os_orchestration_stack leaves in
    [module.params] with a timeout of [limit]. *)
Definition building (ready : Z) : heat_stack :=
  {| hs_id := "id-0"; hs_name := "teststack";
     hs_template := VStr sample_template; hs_parameters := VNone;
     hs_tags := VNone; hs_action := "CREATE"; hs_ready := ready |}.

Definition cloud_building (ready : Z) : world :=
  boot [] (cloud_with [building ready] [] [] 4).

Definition waiting (limit : Z) : gmap string value :=
  orchestration_rest (orchestration_args "teststack" present limit).

Definition cloud_of_services (ss : list service) : world :=
  boot [] (cloud_with [] [] ss 0).

(** The stack object the listing of [cloud_of_one "teststack"] yields. *)
Definition listed_stack : stack :=
  {| stack_id := "id-7"; stack_name := "teststack";
     stack_status := "CREATE_COMPLETE" |}.

(** A run that reports neither a success nor a [changed] verdict. *)
Definition reports_nothing (out : outcome) : Prop :=
  (forall kw, out <> ExitJson kw) /\ changed_of out = None.

(** What os_group may ask of the cloud for a wanted state: a create or an
    update of a group only for [present], a delete only for [absent]. *)
Definition group_event_for (st : target) (ev : event) : Prop :=
  match ev with
  | called (cloud_create_group _ _) _ => st = present
  | called (cloud_update_group _ _) _ => st = present
  | called (cloud_delete_group _) _ => st = absent
  | _ => True
  end.

(** An event that is no update and no delete of a stack. *)
Definition keeps_stacks (ev : event) : Prop :=
  match ev with
  | called (heat_stacks_update _ _ _ _ _ _) _ => False
  | called (heat_stacks_delete _) _ => False
  | _ => True
  end.

(** ** Running programs *)

Lemma run_bind {A B : Type} (p : prog A) (f : A -> prog B) (w : world) :
  run (p ≫= f) w =
  match run p w with
  | (Returned a, w') => run (f a) w'
  | (Raised e, w') => (Raised e, w')
  | (Exited o, w') => (Exited o, w')
  end.
Proof.
  change (p ≫= f) with (bind p f). revert w.
  induction p as [a|e|o|c k IH|k IH|d k IH2]; intros w; simpl; try reflexivity.
  - destruct (head (faults w)) as [[e|]|]; try reflexivity;
      destruct (respond c (now w) (cloud w)) as [[e'|x] r];
      try reflexivity; apply IH.
  - apply IH.
  - apply IH2.
Qed.

Lemma run_time_time (w : world) : run time_time w = (Returned (now w), w).
Proof. reflexivity. Qed.

Lemma run_time_sleep (d : Z) (w : world) :
  run (time_sleep d) w = (Returned tt, tick d w).
Proof. reflexivity. Qed.

Lemma run_sdk (c : call) (w : world) :
  run (sdk c) w =
  match head (faults w) with
  | Some (Some e) => (Raised e, answered c (Some e) (cloud w) w)
  | _ =>
      match respond c (now w) (cloud w) with
      | (inl e, r) => (Raised e, answered c (Some e) r w)
      | (inr x, r) => (Returned x, answered c None r w)
      end
  end.
Proof.
  unfold sdk. simpl. destruct (head (faults w)) as [[e|]|]; try reflexivity;
    destruct (respond c (now w) (cloud w)) as [[e'|x] r]; reflexivity.
Qed.

(** With no fault pending, a call is answered by the service. *)
Lemma run_sdk_calm (c : call) (w : world) :
  faults w = [] ->
  run (sdk c) w =
  match respond c (now w) (cloud w) with
  | (inl e, r) => (Raised e, answered c (Some e) r w)
  | (inr x, r) => (Returned x, answered c None r w)
  end.
Proof. intros H. rewrite run_sdk, H. reflexivity. Qed.

Lemma raised_in_app (l1 l2 : list event) :
  raised_in (l1 ++ l2) = raised_in l1 ++ raised_in l2.
Proof. unfold raised_in. apply omap_app. Qed.

Lemma orderly_step {A : Type} (r : result A) (ev : event) (evs : list event) :
  raised_in [ev] = [] -> orderly r evs -> orderly r (ev :: evs).
Proof.
  intros Hev [Hq | (evs0 & c & e & -> & Hq & ->)].
  - left. change (ev :: evs) with ([ev] ++ evs).
    rewrite raised_in_app, Hev, Hq. reflexivity.
  - right. exists (ev :: evs0), c, e. repeat split.
    change (ev :: evs0) with ([ev] ++ evs0).
    rewrite raised_in_app, Hev, Hq. reflexivity.
Qed.

(** Every run extends the trace, and extends it in an orderly way: the
    first SDK call that raises is the last event of the run. *)
Lemma run_trace {A : Type} (p : prog A) (w : world) :
  exists evs, log (run p w).2 = log w ++ evs /\ orderly (run p w).1 evs.
Proof.
  revert w.
  induction p as [a|e|o|c k IH|k IH|d k IH2]; intros w; simpl.
  - exists []. rewrite app_nil_r. split; [reflexivity | left; reflexivity].
  - exists []. rewrite app_nil_r. split; [reflexivity | left; reflexivity].
  - exists []. rewrite app_nil_r. split; [reflexivity | left; reflexivity].
  - assert (Hstop : forall e r,
      exists evs,
        log (answered c (Some e) r w) = log w ++ evs /\
        orderly (@Raised A e) evs).
    { intros e r. exists [called c (Some e)]. split; [reflexivity|].
      right. exists [], c, e. repeat split. }
    assert (Hgo : forall x r,
      exists evs,
        log (run (k x) (answered c None r w)).2 = log w ++ evs /\
        orderly (run (k x) (answered c None r w)).1 evs).
    { intros x r.
      destruct (IH x (answered c None r w)) as (evs & Hl & Ho).
      exists (called c None :: evs). split.
      - rewrite Hl. simpl. rewrite <- app_assoc. reflexivity.
      - apply orderly_step; [reflexivity | exact Ho]. }
    destruct (head (faults w)) as [[e|]|]; [apply Hstop | |];
      destruct (respond c (now w) (cloud w)) as [[e'|x] r];
      first [apply Hstop | apply Hgo].
  - apply IH.
  - destruct (IH2 (tick d w)) as (evs & Hl & Ho).
    exists (slept d :: evs). split.
    + rewrite Hl. simpl. rewrite <- app_assoc. reflexivity.
    + apply orderly_step; [reflexivity | exact Ho].
Qed.

Lemma since_app (w w' : world) (evs : list event) :
  log w' = log w ++ evs -> since w w' = evs.
Proof. intros H. unfold since. rewrite H. apply drop_app_length. Qed.

Lemma since_same (w : world) : since w w = [].
Proof. unfold since. apply drop_all. Qed.

(** An SDK call that raises ends the run of a body with its exception. *)
Lemma run_raises {A : Type} (p : prog A) (w : world) (e : exn) :
  e ∈ raised_in (since w (run p w).2) ->
  (run p w).1 = Raised e /\
  exists evs c,
    since w (run p w).2 = evs ++ [called c (Some e)] /\ raised_in evs = [].
Proof.
  destruct (run_trace p w) as (evs & Hl & Ho).
  rewrite (since_app _ _ _ Hl). intros He.
  destruct Ho as [Hq | (evs0 & c & e' & -> & Hq & Hr)].
  - rewrite Hq in He. inversion He.
  - rewrite raised_in_app, Hq in He. simpl in He.
    apply list_elem_of_singleton in He. subst e'.
    split; [exact Hr|]. exists evs0, c. split; [reflexivity | exact Hq].
Qed.

Lemma try_except_raises (p : prog unit) (h : exn -> outcome) (w : world)
    (e : exn) :
  e ∈ raised_in (since w (try_except p h w).2) ->
  (exists evs c,
     since w (try_except p h w).2 = evs ++ [called c (Some e)] /\
     raised_in evs = []) /\
  (try_except p h w).1 = h e.
Proof.
  unfold try_except. pose proof (run_raises p w e) as Hr.
  destruct (run p w) as [[x|e0|o] w1]; simpl in *; intros He;
    destruct (Hr He) as [Heq Htr]; try discriminate Heq.
  injection Heq as ->. split; [exact Htr | reflexivity].
Qed.

(** ** The Heat modules and a listing that is not empty *)

Lemma orchestration_body_pops (G : imports) (a : OsOrchestrationStack.args) :
  OsOrchestrationStack.body G (OsOrchestrationStack.params a) =
  OsOrchestrationStack.reconcile G (orchestration_rest a)
    (VStr (OsOrchestrationStack.name a))
    (opt_value dict_value (OsOrchestrationStack.parameters a))
    (opt_value VStr (OsOrchestrationStack.tags a))
    (opt_value VStr (OsOrchestrationStack.template a))
    (VStr (target_str (OsOrchestrationStack.state a))).
Proof. vm_compute. reflexivity. Qed.

Lemma stack_body_pops (G : imports) (a : OsStack.args) :
  OsStack.body G (OsStack.params a) =
  (tags ← str_join "," (opt_value strs_value (OsStack.tags a));
   OsStack.reconcile G (stack_rest a)
     (VStr (OsStack.name a))
     (opt_value dict_value (OsStack.parameters a))
     tags
     (opt_value VStr (OsStack.template_file a))
     (opt_value VStr (OsStack.template_url a))
     (strs_value (OsStack.files a))
     (VStr (target_str (OsStack.state a)))).
Proof. vm_compute. reflexivity. Qed.

Lemma str_join_strs (sep : string) (l : list string) :
  str_join sep (strs_value l) = Ret (VStr (join sep l)).
Proof.
  unfold str_join, strs_value.
  enough (H : forall i acc,
    (fix go (l0 : list value) (i0 : nat) (acc0 : list string) {struct l0}
       : prog value :=
       match l0 with
       | [] => Ret (VStr (join sep (rev acc0)))
       | VStr s :: l' => go l' (S i0) (s :: acc0)
       | x :: _ =>
           Raise (TypeError ("sequence item " +:+ pretty i0
                             +:+ ": expected string, " +:+ type_name x
                             +:+ " found"))
       end) (VStr <$> l) i acc = Ret (VStr (join sep (rev acc ++ l)))).
  { apply (H O []). }
  induction l as [|x l IH]; intros i acc; simpl.
  - rewrite app_nil_r. reflexivity.
  - rewrite IH. simpl. rewrite <- app_assoc. reflexivity.
Qed.

(** [name] is popped before the lookup loop reads it: the first stack of
    a listing makes the loop raise [KeyError]. *)
Lemma find_stack_without_name (mp : gmap string value) (s : stack)
    (l : list stack) :
  mp !! "name" = None -> find_stack mp (s :: l) = Raise (KeyError "name").
Proof. intros H. simpl. unfold getitem. rewrite H. reflexivity. Qed.

Lemma orchestration_rest_name (a : OsOrchestrationStack.args) :
  orchestration_rest a !! "name" = None.
Proof. vm_compute. reflexivity. Qed.

Lemma stack_rest_name (a : OsStack.args) : stack_rest a !! "name" = None.
Proof. vm_compute. reflexivity. Qed.

(** Whatever the imports bind, [os_stack] fails as soon as the service
    lists one stack, of any name. *)
Lemma stack_listed_fails (G : imports) (a : OsStack.args) (w : world) :
  stacks (cloud w) <> [] -> fails_without_verdict (OsStack.main G a w).1.
Proof.
  intros Hne.
  destruct w as [t fs [sts grs svs nid bt pt tc] lg]. simpl in Hne.
  destruct sts as [|s sts]; [congruence|].
  destruct G as [hd [|] gn tb yl jd]; [|vm_compute; reflexivity].
  destruct a as [n tf tu fl ps [tg|] wt to st].
  2: { destruct fs as [|[e1|] [|[e2|] [|[e3|] fs]]]; vm_compute; reflexivity. }
  unfold OsStack.main, try_except. cbn [negb HAS_SHADE].
  rewrite stack_body_pops. cbn [OsStack.tags opt_value].
  rewrite str_join_strs.
  destruct fs as [|[e1|] [|[e2|] [|[e3|] fs]]]; vm_compute; reflexivity.
Qed.

(** And so does [os_orchestration_stack]. *)
Lemma orchestration_listed_fails (G : imports) (a : OsOrchestrationStack.args)
    (w : world) :
  stacks (cloud w) <> [] ->
  fails_without_verdict (OsOrchestrationStack.main G a w).1.
Proof.
  intros Hne.
  destruct w as [t fs [sts grs svs nid bt pt tc] lg]. simpl in Hne.
  destruct sts as [|s sts]; [congruence|].
  destruct G as [[|] hs gn tb yl jd]; [|vm_compute; reflexivity].
  destruct tb;
    destruct fs as [|[e1|] [|[e2|] [|[e3|] [|[e4|] fs]]]];
    vm_compute; reflexivity.
Qed.

Lemma fails_without_verdict_changed (out : outcome) :
  fails_without_verdict out -> changed_of out = None.
Proof. destruct out; simpl; intros H; first [exact H | destruct H]. Qed.

(** ** The lookup loop and the polling loop on their own *)

(** With [name] still in [module.params], the loop returns the first
    stack of the listing whose name is the wanted one up to case, and
    [None] when there is none. *)
Lemma find_stack_with_name (mp : gmap string value) (n : string)
    (l : list stack) :
  mp !! "name" = Some (VStr n) ->
  find_stack mp l =
  Ret (find (fun s => String.eqb (lower (stack_name s)) (lower n)) l).
Proof.
  intros H. induction l as [|s l IH]; [reflexivity|].
  cbn [find_stack find]. unfold getitem. rewrite H. cbn.
  destruct (String.eqb _ _); [reflexivity | exact IH].
Qed.

Lemma run_sdk_now (c : call) (w : world) :
  now (run (sdk c) w).2 = now w.
Proof.
  rewrite run_sdk.
  destruct (head (faults w)) as [[e|]|]; try reflexivity;
    destruct (respond c (now w) (cloud w)) as [[e'|x] r]; reflexivity.
Qed.

(** The loop never needs more turns than [poll] allows it: past
    [expire - now] turns, the fuel does not matter. *)
Lemma wait_while_fuel (fuel fuel' : nat) (expire : Z) (ip : string)
    (ref_of : stack -> string) (fs : stack) (w : world) :
  expire - now w <= Z.of_nat fuel ->
  expire - now w <= Z.of_nat fuel' ->
  run (wait_while fuel expire ip ref_of fs) w =
  run (wait_while fuel' expire ip ref_of fs) w.
Proof.
  revert fuel' fs w.
  induction fuel as [|fuel IH]; intros [|fuel'] fs w H1 H2;
    cbn [wait_while]; rewrite !run_bind, !run_time_time;
    destruct (now w <? expire) eqn:Hlt; try reflexivity;
    apply Z.ltb_lt in Hlt; try lia.
  destruct (negb _); [reflexivity|].
  rewrite !run_bind, !run_time_sleep, !run_bind.
  match goal with |- context [@run ?T ?p (tick 2 w)] =>
    destruct (@run T p (tick 2 w)) as [[s|e|o] w'] eqn:Hget
  end; try reflexivity.
  assert (Hnow : now w' = now w + 2).
  { change w' with ((@Returned stack s, w').2). rewrite <- Hget.
    apply (run_sdk_now (heat_stacks_get (ref_of fs)) (tick 2 w)). }
  apply IH; rewrite Hnow; lia.
Qed.

Lemma snapshot_in_progress (t : Z) (s : heat_stack) :
  hs_action s = "CREATE" -> t < hs_ready s ->
  stack_status (snapshot t s) = "CREATE_IN_PROGRESS".
Proof.
  intros Ha Hr. unfold snapshot. simpl. rewrite Ha.
  apply Z.ltb_lt in Hr. rewrite Hr. reflexivity.
Qed.

Lemma snapshot_complete (t : Z) (s : heat_stack) :
  hs_action s = "CREATE" -> hs_ready s <= t ->
  stack_status (snapshot t s) = "CREATE_COMPLETE".
Proof.
  intros Ha Hr. unfold snapshot. simpl. rewrite Ha.
  apply Z.ltb_ge in Hr. rewrite Hr. reflexivity.
Qed.

Lemma run_get_calm (ref : string) (s : heat_stack) (w : world) :
  faults w = [] ->
  find (refers ref) (stacks (cloud w)) = Some s ->
  @run stack (sdk (heat_stacks_get ref)) w =
  (Returned (snapshot (now w) s),
   answered (heat_stacks_get ref) None (cloud w) w).
Proof.
  intros Hf Hfind.
  change (@run stack (sdk (heat_stacks_get ref)) w)
    with (run (sdk (heat_stacks_get ref)) w).
  rewrite run_sdk_calm by exact Hf.
  simpl. rewrite Hfind. reflexivity.
Qed.

(** A create that is over after [k] sleeps is seen complete, when the
    deadline leaves room for [k] sleeps. *)
Lemma wait_while_completes (k : nat) (fuel : nat) (expire : Z) (ref : string)
    (s : heat_stack) (w : world) :
  faults w = [] ->
  find (refers ref) (stacks (cloud w)) = Some s ->
  hs_action s = "CREATE" ->
  hs_ready s <= now w + 2 * Z.of_nat k ->
  now w + 2 * Z.of_nat k <= expire ->
  (k <= fuel)%nat ->
  exists d w',
    run (wait_while fuel expire "CREATE_IN_PROGRESS" (fun _ => ref)
           (snapshot (now w) s)) w = (Returned d, w') /\
    stack_status d = "CREATE_COMPLETE".
Proof.
  revert fuel w.
  induction k as [|k IH]; intros fuel w Hf Hfind Ha Hready Hexp Hfuel.
  - exists (snapshot (now w) s), w.
    assert (Hst : stack_status (snapshot (now w) s) = "CREATE_COMPLETE")
      by (apply snapshot_complete; [exact Ha | lia]).
    split; [|exact Hst].
    destruct fuel; cbn [wait_while]; rewrite run_bind, run_time_time;
      destruct (now w <? expire); try reflexivity; rewrite Hst; reflexivity.
  - destruct (Z_lt_le_dec (now w) (hs_ready s)) as [Hlt | Hge].
    + destruct fuel as [|fuel]; [lia|].
      cbn [wait_while]. rewrite run_bind, run_time_time.
      assert (Hin : (now w <? expire) = true) by (apply Z.ltb_lt; lia).
      rewrite Hin, (snapshot_in_progress _ _ Ha Hlt), String.eqb_refl.
      cbn [negb].
      rewrite run_bind, run_time_sleep, run_bind.
      rewrite (run_get_calm ref s (tick 2 w)) by (simpl; assumption).
      apply (IH fuel (answered (heat_stacks_get ref) None (cloud (tick 2 w))
                        (tick 2 w))); simpl; try assumption; try lia.
      rewrite Hf. reflexivity.
    + exists (snapshot (now w) s), w.
      assert (Hst : stack_status (snapshot (now w) s) = "CREATE_COMPLETE")
        by (apply snapshot_complete; assumption).
      split; [|exact Hst].
      destruct fuel; cbn [wait_while]; rewrite run_bind, run_time_time;
        destruct (now w <? expire); try reflexivity; rewrite Hst; reflexivity.
Qed.

(** A create that outlasts the deadline is returned still in progress,
    and the loop raises nothing. *)
Lemma wait_while_times_out (fuel : nat) (expire : Z) (ref : string)
    (s : heat_stack) (w : world) :
  faults w = [] ->
  find (refers ref) (stacks (cloud w)) = Some s ->
  hs_action s = "CREATE" ->
  now w < hs_ready s ->
  expire + 2 <= hs_ready s ->
  exists d w',
    run (wait_while fuel expire "CREATE_IN_PROGRESS" (fun _ => ref)
           (snapshot (now w) s)) w = (Returned d, w') /\
    stack_status d = "CREATE_IN_PROGRESS".
Proof.
  revert w.
  induction fuel as [|fuel IH]; intros w Hf Hfind Ha Hnow Hlate;
    cbn [wait_while]; rewrite run_bind, run_time_time;
    pose proof (snapshot_in_progress _ _ Ha Hnow) as Hst;
    (destruct (now w <? expire) eqn:Hin;
       [|exists (snapshot (now w) s), w; split; [reflexivity | exact Hst]]);
    rewrite Hst, String.eqb_refl; cbn [negb].
  - exists (snapshot (now w) s), w. split; [reflexivity | exact Hst].
  - apply Z.ltb_lt in Hin.
    rewrite run_bind, run_time_sleep, run_bind.
    rewrite (run_get_calm ref s (tick 2 w)) by (simpl; assumption).
    apply (IH (answered (heat_stacks_get ref) None (cloud (tick 2 w))
                 (tick 2 w))); simpl; try assumption; try lia.
    rewrite Hf. reflexivity.
Qed.

(** A body that returns or exits met no SDK error. *)
Lemma run_quiet {A : Type} (p : prog A) (w : world) :
  (forall e, (run p w).1 <> Raised e) ->
  raised_in (since w (run p w).2) = [].
Proof.
  intros Hne. destruct (run_trace p w) as (evs & Hl & Ho).
  rewrite (since_app _ _ _ Hl).
  destruct Ho as [Hq | (evs0 & c & e & _ & _ & Hr)]; [exact Hq|].
  destruct (Hne e Hr).
Qed.

Lemma poll_completes (k : nat) (mp : gmap string value) (limit : Z)
    (ref : string) (s : heat_stack) (w : world) :
  faults w = [] ->
  find (refers ref) (stacks (cloud w)) = Some s ->
  hs_action s = "CREATE" ->
  mp !! "wait" = Some (VBool true) ->
  mp !! "timeout" = Some (VInt limit) ->
  hs_ready s <= now w + 2 * Z.of_nat k ->
  2 * Z.of_nat k <= limit ->
  exists d w',
    run (poll mp "CREATE_IN_PROGRESS" (fun _ => ref) (snapshot (now w) s)) w =
      (Returned d, w') /\
    stack_status d = "CREATE_COMPLETE".
Proof.
  intros Hf Hfind Ha Hw Ht Hready Hlimit.
  unfold poll, getitem. rewrite Hw, Ht. cbn.
  apply (wait_while_completes k); try assumption; lia.
Qed.

Lemma poll_times_out (mp : gmap string value) (limit : Z) (ref : string)
    (s : heat_stack) (w : world) :
  faults w = [] ->
  find (refers ref) (stacks (cloud w)) = Some s ->
  hs_action s = "CREATE" ->
  mp !! "wait" = Some (VBool true) ->
  mp !! "timeout" = Some (VInt limit) ->
  now w < hs_ready s ->
  now w + limit + 2 <= hs_ready s ->
  exists d w',
    run (poll mp "CREATE_IN_PROGRESS" (fun _ => ref) (snapshot (now w) s)) w =
      (Returned d, w') /\
    stack_status d = "CREATE_IN_PROGRESS".
Proof.
  intros Hf Hfind Ha Hw Ht Hnow Hlate.
  unfold poll, getitem. rewrite Hw, Ht. cbn.
  apply wait_while_times_out; try assumption; lia.
Qed.

(** Computes [since w w'] when the trace of [w'] is that of [w] with
    events appended one by one. *)
Ltac since_tac :=
  unfold since; simpl;
  repeat (rewrite drop_app_le by (rewrite ?length_app; simpl; lia));
  rewrite drop_all; simpl.

(** ** os_group: lines 78-102 on the arguments the table was meant to declare *)

Lemma find_group_app (key : string) (l : list group) (g : group) :
  find_group key l = None ->
  find_group key (l ++ [g]) = find_group key [g].
Proof.
  unfold find_group. induction l as [|x l IH]; simpl; [reflexivity|].
  destruct (named_or_id _ _ _); [discriminate | exact IH].
Qed.

Lemma value_eqb_opt_str (o : option string) :
  value_eqb (opt_value VStr o) (opt_value VStr o) = true.
Proof. destruct o as [s|]; simpl; [apply String.eqb_refl | reflexivity]. Qed.

Lemma find_group_updated (key gid : string) (d : value) (l : list group)
    (g : group) :
  find_group key l = Some g ->
  gid = group_id g ->
  find_group key
    ((fun g0 => if String.eqb gid (group_id g0) then
        {| group_id := group_id g0; group_name := group_name g0;
           group_description := d |} else g0) <$> l) =
  Some {| group_id := group_id g; group_name := group_name g;
          group_description := d |}.
Proof.
  unfold find_group. intros Hfind ->.
  induction l as [|x l IH]; simpl in *; [discriminate|].
  destruct (String.eqb (group_id g) (group_id x)) eqn:Hid; simpl;
    destruct (named_or_id key (group_name x) (group_id x)) eqn:Hm.
  - injection Hfind as ->. reflexivity.
  - apply IH, Hfind.
  - injection Hfind as ->. rewrite String.eqb_refl in Hid. discriminate.
  - apply IH, Hfind.
Qed.

(** Two runs of [os_group] with [state=present]: whatever the first
    did, the second finds the group as wanted and changes nothing. *)
Lemma os_group_present_twice (a : OsGroup.args) (w : world) :
  OsGroup.state a = present ->
  faults w = [] ->
  let r := twice (OsGroup.main true) a w in
  changed_of r.1.2 = Some (VBool false) /\
  Forall (fun c => mutates c = false)
    (calls_of (since (OsGroup.main true a w).2 r.2)).
Proof.
  intros Hst Hf. destruct w as [t fs r lg]. simpl in Hf. subst fs.
  unfold twice, OsGroup.main, try_except, OsGroup.body. rewrite Hst.
  cbn [negb target_str]. simpl.
  destruct (find_group (OsGroup.name a) (groups r)) as [g|] eqn:Hfind; simpl.
  - destruct (value_eqb (group_description g)
                (opt_value VStr (OsGroup.description a))) eqn:Hd; simpl.
    + rewrite Hfind. simpl. rewrite Hd. simpl. split; [reflexivity|].
      since_tac. repeat constructor.
    + rewrite (find_group_updated _ _ _ _ g Hfind eq_refl). simpl.
      rewrite value_eqb_opt_str. simpl. split; [reflexivity|].
      since_tac. repeat constructor.
  - rewrite (find_group_app _ _ _ Hfind). unfold find_group, named_or_id.
    simpl. rewrite String.eqb_refl. simpl.
    rewrite value_eqb_opt_str. simpl. split; [reflexivity|].
    since_tac. repeat constructor.
Qed.

Lemma find_group_deleted (key : string) (l : list group) (g : group) :
  (forall g', g' ∈ l ->
     named_or_id key (group_name g') (group_id g') = true ->
     group_id g' = group_id g) ->
  find_group key
    (filter (fun g0 => String.eqb (group_id g) (group_id g0) = false) l) = None.
Proof.
  unfold find_group. induction l as [|x l IH]; intros Hu; [reflexivity|].
  rewrite filter_cons.
  assert (IH' := IH (fun g' Hin => Hu g' (list_elem_of_further _ _ _ Hin))).
  destruct (decide _) as [Hne | _]; [|exact IH'].
  simpl. destruct (named_or_id key (group_name x) (group_id x)) eqn:Hm;
    [|exact IH'].
  rewrite (Hu x (list_elem_of_here _ _) Hm), String.eqb_refl in Hne.
  discriminate.
Qed.

(** Two runs of [os_group] with [state=absent] on a group that exists
    (and is the only one of its name): the first deletes it and does not
    wait, the second finds nothing to do. *)
Lemma os_group_absent_twice (a : OsGroup.args) (w : world) (g : group) :
  OsGroup.state a = absent ->
  faults w = [] ->
  find_group (OsGroup.name a) (groups (cloud w)) = Some g ->
  (forall g', g' ∈ groups (cloud w) ->
     named_or_id (OsGroup.name a) (group_name g') (group_id g') = true ->
     group_id g' = group_id g) ->
  let r1 := OsGroup.main true a w in
  let r2 := OsGroup.main true a r1.2 in
  r1.1 = ExitJson [("changed", VBool true)] /\
  since w r1.2 = [called shade_openstack_cloud None;
                  called (cloud_get_group (OsGroup.name a)) None;
                  called (cloud_delete_group (group_id g)) None] /\
  r2.1 = ExitJson [("changed", VBool false)] /\
  since r1.2 r2.2 = [called shade_openstack_cloud None;
                     called (cloud_get_group (OsGroup.name a)) None].
Proof.
  intros Hst Hf Hfind Hu. destruct w as [t fs r lg]. simpl in *. subst fs.
  unfold OsGroup.main, try_except, OsGroup.body. rewrite Hst.
  cbn [negb target_str]. simpl. rewrite Hfind. simpl.
  rewrite (find_group_deleted _ _ _ Hu). simpl.
  repeat split; since_tac; reflexivity.
Qed.

(** ** A present run of a Heat module never reports [changed=false] *)

Lemma sdk_no_exit (c : call) : no_exit (sdk c).
Proof.
  intros w o. rewrite run_sdk.
  destruct (head (faults w)) as [[e|]|]; try discriminate;
    destruct (respond c (now w) (cloud w)) as [[e'|x] r]; discriminate.
Qed.

Ltac sdk_quiet :=
  match goal with |- no_exit (sdk ?c) => exact (sdk_no_exit c) end.

Lemma bind_no_exit {A B : Type} (p : prog A) (f : A -> prog B) :
  no_exit p -> (forall a, no_exit (f a)) -> no_exit (p ≫= f).
Proof.
  intros Hp Hf w o. rewrite run_bind.
  pose proof (Hp w) as Hp'.
  destruct (run p w) as [[a|e|o'] w']; simpl in *;
    [apply Hf | discriminate | destruct (Hp' o' eq_refl)].
Qed.

Lemma wait_while_no_exit (fuel : nat) (expire : Z) (ip : string)
    (ref_of : stack -> string) (fs : stack) :
  no_exit (wait_while fuel expire ip ref_of fs).
Proof.
  revert fs. induction fuel as [|fuel IH]; intros fs w o;
    cbn [wait_while]; rewrite run_bind, run_time_time;
    destruct (now w <? expire); try discriminate;
    destruct (negb _); try discriminate.
  revert w o. apply bind_no_exit; [intros w o; discriminate|].
  intros _. apply bind_no_exit; [sdk_quiet | exact IH].
Qed.

Lemma poll_no_exit (mp : gmap string value) (ip : string)
    (ref_of : stack -> string) (fs : stack) :
  no_exit (poll mp ip ref_of fs).
Proof.
  unfold poll, getitem.
  destruct (mp !! "wait") as [wt|]; [|intros w o; discriminate]. cbn.
  destruct (truthy wt); [|intros w o; discriminate].
  intros w o. rewrite run_time_time || cbn [run].
  destruct (mp !! "timeout") as [to|]; [|discriminate]. cbn.
  destruct to as [|[|]|z| | |]; cbn; try discriminate;
    apply wait_while_no_exit.
Qed.

Lemma halts_bind {A B : Type} (p : prog A) (f : A -> prog B) (w : world) :
  no_exit p ->
  (forall a w', halts_changed (run (f a) w').1) ->
  halts_changed (run (p ≫= f) w).1.
Proof.
  intros Hp Hf. rewrite run_bind. pose proof (Hp w) as Hp'.
  destruct (run p w) as [[a|e|o] w']; simpl in *;
    [apply Hf | exact I | destruct (Hp' o eq_refl)].
Qed.

Lemma halts_then {A B : Type} (p : prog A) (f : A -> prog B) (w : world) :
  halts_changed (run p w).1 -> halts_changed (run (p ≫= f) w).1.
Proof.
  intros Hp. rewrite run_bind.
  destruct (run p w) as [[a|e|o] w']; simpl in *; [destruct Hp | exact I | exact Hp].
Qed.

Lemma read_stack_name_no_exit (G : imports) : no_exit (read_stack_name G).
Proof.
  unfold read_stack_name. intros w o.
  destruct (global_stack_name G); discriminate.
Qed.

Lemma orchestration_create_arm_halts (G : imports) (mp : gmap string value)
    (tp ps tg : value) (w : world) :
  halts_changed (run (OsOrchestrationStack.create_arm G mp tp ps tg) w).1.
Proof.
  unfold OsOrchestrationStack.create_arm.
  apply halts_bind; [apply read_stack_name_no_exit|]. intros sn w1.
  apply halts_bind; [sdk_quiet|]. intros i w2.
  apply halts_bind; [sdk_quiet|]. intros fs w3.
  apply halts_bind; [apply poll_no_exit|]. intros d w4.
  reflexivity.
Qed.

Lemma stack_create_arm_halts (G : imports) (mp : gmap string value)
    (tf tu fl ps tg : value) (w : world) :
  halts_changed (run (OsStack.create_arm G mp tf tu fl ps tg) w).1.
Proof.
  unfold OsStack.create_arm.
  apply halts_bind; [sdk_quiet|]. intros [tpl_files template] w0.
  apply halts_bind; [apply read_stack_name_no_exit|]. intros sn w1.
  apply halts_bind; [sdk_quiet|]. intros i w2.
  apply halts_bind; [sdk_quiet|]. intros fs w3.
  apply halts_bind; [apply poll_no_exit|]. intros d w4.
  reflexivity.
Qed.

Lemma halts_changed_verdict {A : Type} (r : result A) :
  halts_changed r -> verdict r <> Some (VBool false).
Proof.
  destruct r as [a|e|o]; simpl; [intros [] | discriminate |].
  intros ->. discriminate.
Qed.

Lemma verdict_bind {A B : Type} (p : prog A) (f : A -> prog B) (w : world) :
  no_exit p ->
  (forall a w', verdict (run (f a) w').1 <> Some (VBool false)) ->
  verdict (run (p ≫= f) w).1 <> Some (VBool false).
Proof.
  intros Hp Hf. rewrite run_bind. pose proof (Hp w) as Hp'.
  destruct (run p w) as [[a|e|o] w']; simpl in *;
    [apply Hf | discriminate | destruct (Hp' o eq_refl)].
Qed.

Lemma heat_changed_of (p : prog unit) (w : world) :
  changed_of
    (try_except p
       (fun e => FailJson [("msg", VStr ("Heat error: " +:+ message e))]) w).1
    = verdict (run p w).1.
Proof.
  unfold try_except. destruct (run p w) as [[a|e|o] w']; try reflexivity.
  simpl. unfold outcome_of_exit. destruct (failed o); reflexivity.
Qed.

Lemma find_stack_popped (mp : gmap string value) (l : list stack) :
  mp !! "name" = None ->
  find_stack mp l = Ret None \/ find_stack mp l = Raise (KeyError "name").
Proof.
  intros H. destruct l as [|s l]; [left; reflexivity|].
  right. apply find_stack_without_name, H.
Qed.

(** Whatever the imports bind and whatever the cloud holds, a run of
    os_orchestration_stack with [state=present] never reports
    [changed=false]. *)
Lemma orchestration_present_never_unchanged (G : imports)
    (a : OsOrchestrationStack.args) (w : world) :
  OsOrchestrationStack.state a = present ->
  changed_of (OsOrchestrationStack.main G a w).1 <> Some (VBool false).
Proof.
  intros Hst. unfold OsOrchestrationStack.main.
  destruct (HAVE_DEPS G); cbn [negb]; [|discriminate].
  rewrite heat_changed_of, orchestration_body_pops, Hst.
  unfold OsOrchestrationStack.reconcile.
  apply verdict_bind; [sdk_quiet|]. intros _ w1.
  apply verdict_bind; [sdk_quiet|]. intros _ w2.
  apply verdict_bind.
  { destruct (set_tenant_id_bound G); [sdk_quiet|].
    intros w' o. discriminate. }
  intros _ w3.
  apply verdict_bind; [sdk_quiet|]. intros l w4.
  destruct (find_stack_popped _ l (orchestration_rest_name a)) as [-> | ->];
    [|rewrite run_bind; discriminate].
  change (Ret None ≫= ?f) with (f None). cbn [is_set negb andb].
  cbn [target_str value_eqb]. rewrite String.eqb_refl. cbn [when andb].
  apply halts_changed_verdict, halts_then, orchestration_create_arm_halts.
Qed.

(** And neither does a run of os_stack. *)
Lemma stack_present_never_unchanged (G : imports) (a : OsStack.args)
    (w : world) :
  OsStack.state a = present ->
  changed_of (OsStack.main G a w).1 <> Some (VBool false).
Proof.
  intros Hst. unfold OsStack.main.
  destruct (HAS_SHADE G); cbn [negb]; [|discriminate].
  rewrite heat_changed_of, stack_body_pops, Hst.
  destruct (OsStack.tags a) as [tg|]; cbn [opt_value];
    [rewrite str_join_strs | rewrite run_bind; discriminate].
  change (Ret ?x ≫= ?f) with (f x).
  unfold OsStack.reconcile.
  apply verdict_bind; [sdk_quiet|]. intros _ w1.
  apply verdict_bind; [sdk_quiet|]. intros _ w2.
  apply verdict_bind; [sdk_quiet|]. intros l w4.
  destruct (find_stack_popped _ l (stack_rest_name a)) as [-> | ->];
    [|rewrite run_bind; discriminate].
  change (Ret None ≫= ?f) with (f None). cbn [is_set negb andb].
  cbn [target_str value_eqb]. rewrite String.eqb_refl. cbn [when andb].
  apply halts_changed_verdict, halts_then, halts_then.
  apply stack_create_arm_halts.
Qed.

(** ** The claims *)

(** C1 (idempotence of [state=present]) fails on os_orchestration_stack.py:
    run twice from an empty cloud, the module fails both times as the file
    stands ([_set_tenant_id] is unbound, and so is [stack_name] once
    [_set_tenant_id] is supplied); with both names supplied the first run
    creates the stack and the second, instead of reporting
    [changed=false], fails on [module.params['name']], which line 139
    popped. *)
Theorem C1_second_present_run_fails :
  (twice (OsOrchestrationStack.main as_written)
     (orchestration_args "teststack" present 120) (empty_cloud 4)).1
    = (unset_tenant_id, unset_tenant_id) /\
  (twice (OsOrchestrationStack.main with_tenant_id)
     (orchestration_args "teststack" present 120) (empty_cloud 4)).1
    = (unset_stack_name, unset_stack_name) /\
  (twice (OsOrchestrationStack.main (with_both_names "teststack"))
     (orchestration_args "teststack" present 120) (empty_cloud 4)).1
    = (created "CREATE_COMPLETE", heat_failure "name").
Proof. repeat split; vm_compute; reflexivity. Qed.

(** C2 (case-insensitive lookup, first match wins) fails in both Heat
    modules: with a stack named [Test] listed and [test] wanted, and also
    with only a stack of another name listed, the lookup raises
    [KeyError('name')] and the module fails.  The loop itself, given a
    dictionary that still holds [name], picks [Test]. *)
Theorem C2_lookup_raises_key_error :
  report (OsStack.main as_written (stack_args "test" present 120)
            (cloud_of_one "Test"))
    = (heat_failure "name",
       [shade_openstack_cloud; cloud_heat_client; heat_stacks_list]) /\
  report (OsOrchestrationStack.main with_tenant_id
            (orchestration_args "test" present 120) (cloud_of_one "Test"))
    = (heat_failure "name",
       [shade_openstack_cloud; cloud_heat_client; set_tenant_id;
        heat_stacks_list]) /\
  report (OsStack.main as_written (stack_args "test" absent 120)
            (cloud_of_one "Other"))
    = (heat_failure "name",
       [shade_openstack_cloud; cloud_heat_client; heat_stacks_list]) /\
  find_stack {[ "name" := VStr "test" ]}
    [{| stack_id := "id-6"; stack_name := "Other";
        stack_status := "CREATE_COMPLETE" |};
     {| stack_id := "id-7"; stack_name := "Test";
        stack_status := "CREATE_COMPLETE" |}]
    = Ret (Some {| stack_id := "id-7"; stack_name := "Test";
                   stack_status := "CREATE_COMPLETE" |}).
Proof. repeat split; vm_compute; reflexivity. Qed.

(** C3 (one create call, then polling, then [changed=true]) fails in both
    Heat modules: with [state=present] and nothing listed, building the
    arguments of [heat.stacks.create] raises [NameError] on [stack_name],
    so no create call is made and the module fails. *)
Theorem C3_create_is_never_issued :
  report (OsStack.main as_written (stack_args "teststack" present 120)
            (empty_cloud 4))
    = (unset_stack_name,
       [shade_openstack_cloud; cloud_heat_client; heat_stacks_list;
        cloud_get_template_contents (VStr "../templates/sample.yml.j2")
          VNone (VList [])]) /\
  report (OsOrchestrationStack.main with_tenant_id
            (orchestration_args "teststack" present 120) (empty_cloud 4))
    = (unset_stack_name,
       [shade_openstack_cloud; cloud_heat_client; set_tenant_id;
        heat_stacks_list]) /\
  report (OsOrchestrationStack.main as_written
            (orchestration_args "teststack" present 120) (empty_cloud 4))
    = (unset_tenant_id, [shade_openstack_cloud; cloud_heat_client]).
Proof. repeat split; vm_compute; reflexivity. Qed.

(** C4 (create, wait, [CREATE_COMPLETE] within the budget) fails on
    os_orchestration_stack.py: with a create that takes two polling
    intervals and a timeout of 120, the module fails before it creates
    anything.  Only with both unbound names supplied does the run end in
    [CREATE_COMPLETE]. *)
Theorem C4_create_then_wait_fails :
  (OsOrchestrationStack.main as_written
     (orchestration_args "teststack" present 120) (empty_cloud 4)).1
    = unset_tenant_id /\
  (OsOrchestrationStack.main with_tenant_id
     (orchestration_args "teststack" present 120) (empty_cloud 4)).1
    = unset_stack_name /\
  (OsOrchestrationStack.main (with_both_names "teststack")
     (orchestration_args "teststack" present 120) (empty_cloud 4)).1
    = created "CREATE_COMPLETE".
Proof. repeat split; vm_compute; reflexivity. Qed.

(** C5 (silent timeout: [changed=true], still [CREATE_IN_PROGRESS], no
    error) fails in both Heat modules: with a create that outlasts the
    timeout, the module fails with an error before it creates anything.
    Only with both unbound names supplied does the run end as the claim
    says. *)
Theorem C5_timeout_run_fails_with_error :
  (OsStack.main as_written (stack_args "teststack" present 6)
     (empty_cloud 1000)).1
    = unset_stack_name /\
  (OsOrchestrationStack.main as_written
     (orchestration_args "teststack" present 6) (empty_cloud 1000)).1
    = unset_tenant_id /\
  (OsOrchestrationStack.main with_tenant_id
     (orchestration_args "teststack" present 6) (empty_cloud 1000)).1
    = unset_stack_name /\
  (OsOrchestrationStack.main (with_both_names "teststack")
     (orchestration_args "teststack" present 6) (empty_cloud 1000)).1
    = created "CREATE_IN_PROGRESS".
Proof. repeat split; vm_compute; reflexivity. Qed.

(** C6 (no update, [changed=false], when the applied template is the
    desired one) fails in both Heat modules: with the stack listed and its
    template the desired one, the lookup raises [KeyError('name')] and the
    module fails.  The update arm of os_orchestration_stack.py, run on its
    own on the stack found, reports [changed=false]; that of os_stack.py
    reads the local [template], which nothing has assigned. *)
Theorem C6_same_template_run_fails :
  report (OsOrchestrationStack.main with_tenant_id
            (orchestration_args "teststack" present 120)
            (cloud_of_one "teststack"))
    = (heat_failure "name",
       [shade_openstack_cloud; cloud_heat_client; set_tenant_id;
        heat_stacks_list]) /\
  report (OsStack.main as_written (stack_args "teststack" present 120)
            (cloud_of_one "teststack"))
    = (heat_failure "name",
       [shade_openstack_cloud; cloud_heat_client; heat_stacks_list]) /\
  verdict (run (OsOrchestrationStack.update_arm as_written
                  (orchestration_rest
                     (orchestration_args "teststack" present 120))
                  (VStr sample_template) VNone VNone
                  (Some {| stack_id := "id-7"; stack_name := "teststack";
                           stack_status := "CREATE_COMPLETE" |}))
             (cloud_of_one "teststack")).1
    = Some (VBool false) /\
  (run (OsStack.update_arm as_written
          (stack_rest (stack_args "teststack" present 120))
          None None VNone VNone
          (Some {| stack_id := "id-7"; stack_name := "teststack";
                   stack_status := "CREATE_COMPLETE" |}))
     (cloud_of_one "teststack")).1
    = Raised (UnboundLocalError "template").
Proof. repeat split; vm_compute; reflexivity. Qed.

(** C7 ([state=absent]: delete and [changed=true], then [changed=false])
    fails on os_orchestration_stack.py: with the stack listed, both runs
    fail on the lookup (or, as the file stands, on [_set_tenant_id]) and
    no delete call is made. *)
Theorem C7_absent_run_fails :
  report (OsOrchestrationStack.main with_tenant_id
            (orchestration_args "teststack" absent 120)
            (cloud_of_one "teststack"))
    = (heat_failure "name",
       [shade_openstack_cloud; cloud_heat_client; set_tenant_id;
        heat_stacks_list]) /\
  (twice (OsOrchestrationStack.main with_tenant_id)
     (orchestration_args "teststack" absent 120)
     (cloud_of_one "teststack")).1
    = (heat_failure "name", heat_failure "name") /\
  (twice (OsOrchestrationStack.main as_written)
     (orchestration_args "teststack" absent 120)
     (cloud_of_one "teststack")).1
    = (unset_tenant_id, unset_tenant_id).
Proof. repeat split; vm_compute; reflexivity. Qed.

(** C8, as amended.  Whichever of the four modules runs, an SDK call that
    raises is the last call of the run (nothing is retried), and the
    module ends as its [except] clause says: the Heat modules fail with
    [Heat error: ] followed by the message of the exception; os_group and
    os_keystone_service catch shade's exceptions only, any other escapes
    as a traceback; os_group fails with the message;
    os_keystone_service fails with [exception: ] followed by the message,
    but in check mode it exits with [changed=true] and that text instead
    of failing. *)
Theorem C8_sdk_errors_end_the_run (i : invocation) (w : world) (e : exn) :
  e ∈ raised_in (since w (invoke i w).2) ->
  (exists evs c,
     since w (invoke i w).2 = evs ++ [called c (Some e)] /\
     raised_in evs = []) /\
  (invoke i w).1 =
    match i with
    | os_orchestration_stack _ _ | os_stack _ _ => heat_failure (message e)
    | os_group _ _ =>
        if is_cloud_exception e then
          FailJson [("msg", VStr (message e));
                    ("extra_data", extra_data_of e)]
        else Traceback e
    | os_keystone_service _ a =>
        if is_cloud_exception e then
          if OsKeystoneService.check_mode a then
            ExitJson [("changed", VBool true);
                      ("msg", VStr ("exception: " +:+ message e))]
          else FailJson [("msg", VStr ("exception: " +:+ message e))]
        else Traceback e
    end.
Proof.
  destruct i as [G a|G a|h a|h a]; simpl;
    [unfold OsOrchestrationStack.main; destruct (HAVE_DEPS G)
    |unfold OsStack.main; destruct (HAS_SHADE G)
    |unfold OsGroup.main; destruct h
    |unfold OsKeystoneService.main; destruct h]; cbn [negb];
    try (cbn [snd]; rewrite since_same; intros He; inversion He);
    apply try_except_raises.
Qed.

(** C8 at an input: os_stack, when [heat.stacks.list()] is refused. *)
Lemma C8_sdk_errors_end_the_run_witness :
  unauthorized
    ∈ raised_in
        (since (boot [None; None; Some unauthorized] (cloud_with [] [] [] 4))
           (invoke (os_stack as_written (stack_args "teststack" present 120))
              (boot [None; None; Some unauthorized]
                 (cloud_with [] [] [] 4))).2) /\
  (invoke (os_stack as_written (stack_args "teststack" present 120))
     (boot [None; None; Some unauthorized] (cloud_with [] [] [] 4))).1
    = heat_failure "The request you have made requires authentication.".
Proof.
  assert (H : unauthorized
    ∈ raised_in
        (since (boot [None; None; Some unauthorized] (cloud_with [] [] [] 4))
           (invoke (os_stack as_written (stack_args "teststack" present 120))
              (boot [None; None; Some unauthorized]
                 (cloud_with [] [] [] 4))).2)).
  { vm_compute. apply list_elem_of_here. }
  split; [exact H|].
  exact (proj2 (C8_sdk_errors_end_the_run _ _ _ H)).
Defined.

(** C8 as stated is false: in check mode, os_keystone_service answers an
    authentication error raised by [get_service] with a successful
    [exit_json(changed=True, ...)], not with a failure. *)
Lemma C8_check_mode_counterexample :
  unauthorized
    ∈ raised_in
        (log (OsKeystoneService.main true (keystone_args present true)
                (boot [None; Some unauthorized] (cloud_with [] [] [] 0))).2) /\
  (OsKeystoneService.main true (keystone_args present true)
     (boot [None; Some unauthorized] (cloud_with [] [] [] 0))).1
    = ExitJson
        [("changed", VBool true);
         ("msg",
          VStr "exception: The request you have made requires authentication.")] /\
  ~ fails_with_message
      (OsKeystoneService.main true (keystone_args present true)
         (boot [None; Some unauthorized] (cloud_with [] [] [] 0))).1
      unauthorized.
Proof.
  split; [vm_compute; apply list_elem_of_here|].
  split; [vm_compute; reflexivity|].
  intros (prefix & kw & Hout & _). vm_compute in Hout. discriminate Hout.
Qed.


(** C10.  With [state=present], when [get_service] finds a service whose
    type or description is not the wanted one, os_keystone_service exits
    with [changed=false], [result='exists'] and the id of the service
    found; it makes no call besides [operator_cloud] and [get_service],
    and the cloud is as it was. *)
Theorem C10_keystone_service_left_as_found
    (a : OsKeystoneService.args) (w : world) (svc : service) :
  OsKeystoneService.state a = present ->
  faults w = [] ->
  find_service (OsKeystoneService.name a) (services (cloud w)) = Some svc ->
  svc_type svc <> OsKeystoneService.service_type a \/
  svc_description svc <> OsKeystoneService.description a ->
  (OsKeystoneService.main true a w).1
    = ExitJson [("changed", VBool false); ("result", VStr "exists");
                ("msg", VStr "Keystone services cannot be updated");
                ("id", VStr (svc_id svc))] /\
  since w (OsKeystoneService.main true a w).2
    = [called shade_operator_cloud None;
       called (cloud_get_service (OsKeystoneService.name a)) None] /\
  Forall (fun c => mutates c = false)
    (calls_of (since w (OsKeystoneService.main true a w).2)) /\
  cloud (OsKeystoneService.main true a w).2 = cloud w.
Proof.
  intros Hst Hf Hfind Hdiff.
  assert (Hcmp : OsKeystoneService.compare_services svc
            {| OsKeystoneService.kw_name := OsKeystoneService.name a;
               OsKeystoneService.kw_service_type :=
                 OsKeystoneService.service_type a;
               OsKeystoneService.kw_description :=
                 OsKeystoneService.description a |} = false).
  { unfold OsKeystoneService.compare_services. simpl.
    destruct Hdiff as [Hd | Hd]; apply String.eqb_neq in Hd; rewrite Hd;
      rewrite ?andb_false_r; reflexivity. }
  destruct w as [t fs r lg]. simpl in Hf, Hfind. subst fs.
  unfold OsKeystoneService.main, try_except, OsKeystoneService.body.
  rewrite Hst. simpl. rewrite Hfind, Hcmp. simpl.
  repeat split; since_tac; repeat constructor.
Qed.

(** C10 at an input: [glance] is registered with the type [images] where
    [image] is wanted. *)
Lemma C10_keystone_service_left_as_found_witness :
  (OsKeystoneService.main true (keystone_args present false)
     (boot [] (cloud_with [] []
                 [glance "id-3" "images" "Glance image service"] 0))).1
    = ExitJson [("changed", VBool false); ("result", VStr "exists");
                ("msg", VStr "Keystone services cannot be updated");
                ("id", VStr "id-3")].
Proof.
  refine (proj1 (C10_keystone_service_left_as_found
                   (keystone_args present false)
                   (boot [] (cloud_with [] []
                      [glance "id-3" "images" "Glance image service"] 0))
                   (glance "id-3" "images" "Glance image service")
                   eq_refl eq_refl eq_refl _)).
  left. discriminate.
Defined.

(** ** Further properties of the modules *)

(** A run does not read the trace: it appends to it what it would append
    to an empty one. *)
Lemma run_frame {A : Type} (p : prog A) (w : world) :
  run p w =
  ((run p (with_log [] w)).1,
   with_log (log w ++ log (run p (with_log [] w)).2)
     (run p (with_log [] w)).2).
Proof.
  enough (H : forall l1 l2 (w : world),
            run p (with_log l2 w) =
            ((run p (with_log l1 w)).1,
             with_log (l2 ++ drop (length l1) (log (run p (with_log l1 w)).2))
               (run p (with_log l1 w)).2)).
  { specialize (H [] (log w) w). destruct w as [t fs r lg]. exact H. }
  induction p as [a|e|o|c k IH|k IH|d k IH2]; intros l1 l2 w'; simpl.
  - rewrite drop_all, app_nil_r. reflexivity.
  - rewrite drop_all, app_nil_r. reflexivity.
  - rewrite drop_all, app_nil_r. reflexivity.
  - destruct (head (faults w')) as [[e|]|].
    + unfold answered, with_log. simpl. rewrite drop_app_length. reflexivity.
    + destruct (respond c (now w') (cloud w')) as [[e'|x] r].
      * unfold answered, with_log. simpl. rewrite drop_app_length. reflexivity.
      * change (answered c None r (with_log l2 w'))
          with (with_log (l2 ++ [called c None]) (answered c None r w')).
        change (answered c None r (with_log l1 w'))
          with (with_log (l1 ++ [called c None]) (answered c None r w')).
        rewrite (IH x (l1 ++ [called c None]) (l2 ++ [called c None])).
        f_equal. f_equal.
        destruct (run_trace (k x)
                    (with_log (l1 ++ [called c None]) (answered c None r w')))
          as (evs & Hl & _).
        rewrite Hl. simpl. rewrite drop_app_length.
        rewrite <- !app_assoc, drop_app_length. reflexivity.
    + destruct (respond c (now w') (cloud w')) as [[e'|x] r].
      * unfold answered, with_log. simpl. rewrite drop_app_length. reflexivity.
      * change (answered c None r (with_log l2 w'))
          with (with_log (l2 ++ [called c None]) (answered c None r w')).
        change (answered c None r (with_log l1 w'))
          with (with_log (l1 ++ [called c None]) (answered c None r w')).
        rewrite (IH x (l1 ++ [called c None]) (l2 ++ [called c None])).
        f_equal. f_equal.
        destruct (run_trace (k x)
                    (with_log (l1 ++ [called c None]) (answered c None r w')))
          as (evs & Hl & _).
        rewrite Hl. simpl. rewrite drop_app_length.
        rewrite <- !app_assoc, drop_app_length. reflexivity.
  - apply (IH (now w') l1 l2 w').
  - change (tick d (with_log l2 w'))
      with (with_log (l2 ++ [slept d]) (tick d w')).
    change (tick d (with_log l1 w'))
      with (with_log (l1 ++ [slept d]) (tick d w')).
    rewrite (IH2 (l1 ++ [slept d]) (l2 ++ [slept d])).
    f_equal. f_equal.
    destruct (run_trace k (with_log (l1 ++ [slept d]) (tick d w')))
      as (evs & Hl & _).
    rewrite Hl. simpl. rewrite drop_app_length.
    rewrite <- !app_assoc, drop_app_length. reflexivity.
Qed.

Lemma try_except_framed (p : prog unit) (h : exn -> outcome) :
  framed (try_except p h).
Proof.
  intros w. unfold try_except. rewrite (run_frame p w).
  destruct (run p (with_log [] w)) as [[x|e|o] w']; reflexivity.
Qed.

Lemma invoke_framed (i : invocation) : framed (invoke i).
Proof.
  assert (Hconst : forall o, framed (fun w => (o, w))).
  { intros o [t fs r lg]. unfold with_log. simpl. rewrite app_nil_r.
    reflexivity. }
  destruct i as [G a|G a|h a|h a]; intros w; simpl;
    [unfold OsOrchestrationStack.main; destruct (HAVE_DEPS G)
    |unfold OsStack.main; destruct (HAS_SHADE G)
    |unfold OsGroup.main; destruct h
    |unfold OsKeystoneService.main; destruct h]; cbn [negb];
    first [apply try_except_framed | apply (Hconst _ w)].
Qed.

(** What a framed runner reports, appends and leaves is what it does from
    an empty trace. *)
Lemma framed_since (f : world -> outcome * world) (w : world) :
  framed f ->
  (f w).1 = (f (with_log [] w)).1 /\
  since w (f w).2 = log (f (with_log [] w)).2 /\
  cloud (f w).2 = cloud (f (with_log [] w)).2 /\
  now (f w).2 = now (f (with_log [] w)).2.
Proof.
  intros Hf. rewrite (Hf w). simpl. repeat split.
  unfold since. simpl. apply drop_app_length.
Qed.

(** While [stack_name] is unbound, no run of a Heat module
    asks the service to create, update or delete anything. *)
Lemma stack_unbound_harmless (G : imports) (a : OsStack.args) (w : world) :
  global_stack_name G = None ->
  harmless (since w (OsStack.main G a w).2) /\
  cloud (OsStack.main G a w).2 = cloud w.
Proof.
  intros Hg.
  change (OsStack.main G a w) with (invoke (os_stack G a) w).
  destruct (framed_since _ w (invoke_framed (os_stack G a)))
    as (_ & -> & -> & _).
  simpl invoke.
  destruct w as [t fs [sts grs svs nid bt pt [tcf tct]] lg].
  destruct G as [hd [|] gn tb yl jd]; simpl in Hg; subst gn;
    [|split; [constructor | reflexivity]].
  destruct a as [n tf tu fl ps [tg|] wt to st].
  2: { split; [vm_compute; constructor | reflexivity]. }
  unfold OsStack.main, try_except. cbn [negb HAS_SHADE].
  rewrite stack_body_pops. cbn [OsStack.tags opt_value].
  rewrite str_join_strs. unfold harmless.
  destruct st; destruct sts as [|s sts];
    destruct fs as [|[e1|] [|[e2|] [|[e3|] [|[e4|] fs]]]];
    (split; [vm_compute; repeat constructor | vm_compute; reflexivity]).
Qed.

Lemma orchestration_unbound_harmless (G : imports)
    (a : OsOrchestrationStack.args) (w : world) :
  global_stack_name G = None ->
  harmless (since w (OsOrchestrationStack.main G a w).2) /\
  cloud (OsOrchestrationStack.main G a w).2 = cloud w.
Proof.
  intros Hg.
  change (OsOrchestrationStack.main G a w)
    with (invoke (os_orchestration_stack G a) w).
  destruct (framed_since _ w (invoke_framed (os_orchestration_stack G a)))
    as (_ & -> & -> & _).
  simpl invoke.
  destruct w as [t fs [sts grs svs nid bt pt tc] lg].
  destruct G as [[|] hs gn tb yl jd]; simpl in Hg; subst gn;
    [|split; [constructor | reflexivity]].
  destruct a as [n tp ps tg wt to st]. unfold harmless.
  destruct tb; destruct st; destruct sts as [|s sts];
    destruct fs as [|[e1|] [|[e2|] [|[e3|] [|[e4|] fs]]]];
    (split; [vm_compute; repeat constructor | vm_compute; reflexivity]).
Qed.

(** With a stack listed, a run of a Heat module stops at the lookup: it
    asks for no create, update or delete either. *)
Lemma stack_listed_harmless (G : imports) (a : OsStack.args) (w : world) :
  stacks (cloud w) <> [] ->
  harmless (since w (OsStack.main G a w).2) /\
  cloud (OsStack.main G a w).2 = cloud w.
Proof.
  intros Hne.
  change (OsStack.main G a w) with (invoke (os_stack G a) w).
  destruct (framed_since _ w (invoke_framed (os_stack G a)))
    as (_ & -> & -> & _).
  simpl invoke.
  destruct w as [t fs [sts grs svs nid bt pt tc] lg]. simpl in Hne.
  destruct sts as [|s sts]; [congruence|].
  destruct G as [hd [|] gn tb yl jd]; [|split; [constructor | reflexivity]].
  destruct a as [n tf tu fl ps [tg|] wt to st].
  2: { split; [vm_compute; constructor | reflexivity]. }
  unfold OsStack.main, try_except. cbn [negb HAS_SHADE].
  rewrite stack_body_pops. cbn [OsStack.tags opt_value].
  rewrite str_join_strs. unfold harmless.
  destruct fs as [|[e1|] [|[e2|] [|[e3|] fs]]];
    (split; [vm_compute; repeat constructor | vm_compute; reflexivity]).
Qed.

Lemma orchestration_listed_harmless (G : imports)
    (a : OsOrchestrationStack.args) (w : world) :
  stacks (cloud w) <> [] ->
  harmless (since w (OsOrchestrationStack.main G a w).2) /\
  cloud (OsOrchestrationStack.main G a w).2 = cloud w.
Proof.
  intros Hne.
  change (OsOrchestrationStack.main G a w)
    with (invoke (os_orchestration_stack G a) w).
  destruct (framed_since _ w (invoke_framed (os_orchestration_stack G a)))
    as (_ & -> & -> & _).
  simpl invoke.
  destruct w as [t fs [sts grs svs nid bt pt tc] lg]. simpl in Hne.
  destruct sts as [|s sts]; [congruence|].
  destruct G as [[|] hs gn tb yl jd]; [|split; [constructor | reflexivity]].
  unfold harmless.
  destruct tb;
    destruct fs as [|[e1|] [|[e2|] [|[e3|] [|[e4|] fs]]]];
    (split; [vm_compute; repeat constructor | vm_compute; reflexivity]).
Qed.

(** Without [_set_tenant_id], os_orchestration_stack fails whatever it is
    asked, after two calls at most. *)
Lemma orchestration_unbound_tenant_fails (G : imports)
    (a : OsOrchestrationStack.args) (w : world) :
  set_tenant_id_bound G = false ->
  fails_without_verdict (OsOrchestrationStack.main G a w).1 /\
  (length (calls_of (since w (OsOrchestrationStack.main G a w).2)) <= 2)%nat.
Proof.
  intros Hg.
  change (OsOrchestrationStack.main G a w)
    with (invoke (os_orchestration_stack G a) w).
  destruct (framed_since _ w (invoke_framed (os_orchestration_stack G a)))
    as (-> & -> & _).
  simpl invoke.
  destruct w as [t fs r lg].
  destruct G as [[|] hs gn tb yl jd]; simpl in Hg; subst tb;
    [|split; [reflexivity | simpl; lia]].
  destruct fs as [|[e1|] [|[e2|] fs]];
    (split; [vm_compute; reflexivity | vm_compute; lia]).
Qed.

(** ** Runs that report nothing *)

Lemma fails_reports_nothing (out : outcome) :
  fails_without_verdict out -> reports_nothing out.
Proof.
  destruct out as [kw|kw|e|]; simpl; intros H; try (destruct H; fail).
  split; [discriminate | exact H].
Qed.

(** While [stack_name] is unbound no run of a Heat module reports
    [changed=true]: the one arm that could reads that name first. *)
Lemma orchestration_unbound_never_changed (G : imports)
    (a : OsOrchestrationStack.args) (w : world) :
  global_stack_name G = None ->
  changed_of (OsOrchestrationStack.main G a w).1 <> Some (VBool true).
Proof.
  intros Hg.
  change (OsOrchestrationStack.main G a w)
    with (invoke (os_orchestration_stack G a) w).
  destruct (framed_since _ w (invoke_framed (os_orchestration_stack G a)))
    as (-> & _).
  simpl invoke.
  destruct w as [t fs [sts grs svs nid bt pt tc] lg].
  destruct G as [[|] hs gn tb yl jd]; simpl in Hg; subst gn;
    [|discriminate].
  destruct a as [n tp ps tg wt to st].
  destruct tb; destruct st; destruct sts as [|s sts];
    destruct fs as [|[e1|] [|[e2|] [|[e3|] [|[e4|] fs]]]];
    vm_compute; discriminate.
Qed.

Lemma stack_unbound_never_changed (G : imports) (a : OsStack.args)
    (w : world) :
  global_stack_name G = None ->
  changed_of (OsStack.main G a w).1 <> Some (VBool true).
Proof.
  intros Hg.
  change (OsStack.main G a w) with (invoke (os_stack G a) w).
  destruct (framed_since _ w (invoke_framed (os_stack G a))) as (-> & _).
  simpl invoke.
  destruct w as [t fs [sts grs svs nid bt pt [tcf tct]] lg].
  destruct G as [hd [|] gn tb yl jd]; simpl in Hg; subst gn;
    [|discriminate].
  destruct a as [n tf tu fl ps [tg|] wt to st].
  2: { vm_compute. discriminate. }
  unfold OsStack.main, try_except. cbn [negb HAS_SHADE].
  rewrite stack_body_pops. cbn [OsStack.tags opt_value].
  rewrite str_join_strs.
  destruct st; destruct sts as [|s sts];
    destruct fs as [|[e1|] [|[e2|] [|[e3|] [|[e4|] fs]]]];
    vm_compute; discriminate.
Qed.

(** Without [tags], os_stack stops at the join of line 142, before it
    has called anything. *)
Lemma stack_without_tags (G : imports) (a : OsStack.args) (w : world) :
  OsStack.tags a = None ->
  (OsStack.main G a w).2 = w /\ fails_without_verdict (OsStack.main G a w).1.
Proof.
  intros Ht. unfold OsStack.main, try_except.
  destruct (HAS_SHADE G); cbn [negb]; [|split; reflexivity].
  rewrite stack_body_pops, Ht. split; reflexivity.
Qed.

Lemma orchestration_unbound_tenant_blind (G : imports)
    (a : OsOrchestrationStack.args) (w : world) :
  set_tenant_id_bound G = false ->
  heat_stacks_list ∉ calls_of (since w (OsOrchestrationStack.main G a w).2).
Proof.
  intros Hg.
  change (OsOrchestrationStack.main G a w)
    with (invoke (os_orchestration_stack G a) w).
  destruct (framed_since _ w (invoke_framed (os_orchestration_stack G a)))
    as (_ & -> & _).
  simpl invoke.
  destruct w as [t fs r lg].
  destruct G as [[|] hs gn tb yl jd]; simpl in Hg; subst tb;
    [|simpl; apply not_elem_of_nil].
  destruct fs as [|[e1|] [|[e2|] fs]]; vm_compute; intros H;
    repeat (apply elem_of_cons in H; destruct H as [H|H];
            [discriminate H|]);
    apply elem_of_nil in H; exact H.
Qed.

(** ** The polling loop: its trace *)

Lemma polling_events_harmless (evs : list event) :
  Forall polling_event evs -> harmless evs.
Proof.
  unfold harmless. induction 1 as [|ev evs Hev _ IH]; [constructor|].
  destruct Hev as [-> | (ref & raised & ->)]; simpl;
    [exact IH | constructor; [reflexivity | exact IH]].
Qed.

Lemma wait_while_events (fuel : nat) (expire : Z) (ip : string)
    (ref_of : stack -> string) (fs : stack) (w : world) :
  Forall polling_event
    (since w (run (wait_while fuel expire ip ref_of fs) w).2).
Proof.
  revert fs w.
  induction fuel as [|fuel IH]; intros fs w;
    cbn [wait_while]; rewrite run_bind, run_time_time;
    destruct (now w <? expire); try (simpl; rewrite since_same; constructor);
    destruct (negb _); try (simpl; rewrite since_same; constructor).
  rewrite run_bind, run_time_sleep, run_bind.
  pose proof (run_sdk (heat_stacks_get (ref_of fs)) (tick 2 w)) as Hget.
  match goal with |- context [@run ?T ?p (tick 2 w)] =>
    change (run (sdk (heat_stacks_get (ref_of fs))) (tick 2 w))
      with (@run T p (tick 2 w)) in Hget;
    destruct (@run T p (tick 2 w)) as [[s|e|o] w'] eqn:Hrun
  end.
  - assert (Hw' : w' = answered (heat_stacks_get (ref_of fs)) None
                         (cloud w') (tick 2 w)).
    { destruct (head (faults (tick 2 w))) as [[e|]|]; try discriminate Hget;
        destruct (respond _ _ _) as [[e'|x] r]; try discriminate Hget;
        injection Hget as _ ->; reflexivity. }
    specialize (IH s w').
    destruct (run_trace (wait_while fuel expire ip ref_of s) w')
      as (evs & Hl & _).
    rewrite (since_app _ _ _ Hl) in IH.
    rewrite (since_app w _
               (slept 2 :: called (heat_stacks_get (ref_of fs)) None :: evs)).
    + constructor; [left; reflexivity|].
      constructor; [right; eauto | exact IH].
    + rewrite Hl, Hw'. simpl. rewrite <- !app_assoc. reflexivity.
  - simpl.
    assert (Hw' : exists r, w' = answered (heat_stacks_get (ref_of fs))
                                   (Some e) r (tick 2 w)).
    { destruct (head (faults (tick 2 w))) as [[e0|]|];
        [injection Hget as -> ->; eauto | |];
        destruct (respond _ _ _) as [[e'|x] r]; try discriminate Hget;
        injection Hget as -> ->; eauto. }
    destruct Hw' as (r & ->).
    rewrite (since_app w _
               [slept 2; called (heat_stacks_get (ref_of fs)) (Some e)]).
    + constructor; [left; reflexivity|].
      constructor; [right; eauto | constructor].
    + simpl. rewrite <- app_assoc. reflexivity.
  - exfalso.
    destruct (head (faults (tick 2 w))) as [[e0|]|]; try discriminate Hget;
      destruct (respond _ _ _) as [[e'|x] r]; discriminate Hget.
Qed.

Lemma poll_events (mp : gmap string value) (ip : string)
    (ref_of : stack -> string) (fs : stack) (w : world) :
  Forall polling_event (since w (run (poll mp ip ref_of fs) w).2).
Proof.
  unfold poll, getitem.
  destruct (mp !! "wait") as [wt|];
    [|simpl; rewrite since_same; constructor].
  rewrite run_bind. cbn [run].
  destruct (truthy wt); [|simpl; rewrite since_same; constructor].
  rewrite run_bind, run_time_time.
  destruct (mp !! "timeout") as [to|];
    [|simpl; rewrite since_same; constructor].
  rewrite run_bind. cbn [run]. rewrite run_bind.
  destruct to as [|[|]|z| | |]; cbn [run add_time];
    first [apply wait_while_events | rewrite since_same; constructor].
Qed.

(** X12.  The update arm of os_orchestration_stack.py, run on a stack the
    service holds, with no fault: when [json.dumps] of the applied
    template equals [json.dumps] of the parsed desired template, it exits
    with [changed=false] and the refreshed stack, after the refresh and
    the template fetch only, and the cloud is as it was. *)
Theorem X12_orchestration_update_skipped_for_same_template (G : imports)
    (mp : gmap string value) (text : string) (ps tg t : value) (fs : stack) (s : heat_stack)
    (w : world) :
  faults w = [] ->
  yaml_load G text = inr t ->
  find (refers (identifier fs)) (stacks (cloud w)) = Some s ->
  find (refers (hs_name s +:+ "/" +:+ hs_id s)) (stacks (cloud w)) = Some s ->
  json_dumps G (hs_template s) = json_dumps G t ->
  (run (OsOrchestrationStack.update_arm G mp (VStr text) ps tg (Some fs)) w).1
    = Exited {| failed := false;
                kwargs := [("changed", VBool false);
                           ("info", stack_to_dict (snapshot (now w) s))] |} /\
  since w (run (OsOrchestrationStack.update_arm G mp (VStr text) ps tg
                  (Some fs)) w).2
    = [called (found_stack_get (identifier fs)) None;
       called (heat_stacks_template (hs_name s +:+ "/" +:+ hs_id s)) None] /\
  cloud (run (OsOrchestrationStack.update_arm G mp (VStr text) ps tg
                (Some fs)) w).2 = cloud w.
Proof.
  intros Hf Hy Hfind1 Hfind2 Hj.
  destruct w as [t0 fs0 r lg]. simpl in Hf, Hfind1, Hfind2. subst fs0.
  unfold OsOrchestrationStack.update_arm, OsOrchestrationStack.load_template.
  rewrite Hy. simpl. rewrite Hfind1. simpl.
  change (identifier (snapshot t0 s)) with (hs_name s +:+ "/" +:+ hs_id s).
  rewrite Hfind2. simpl.
  rewrite Hj, String.eqb_refl. simpl.
  split; [reflexivity|]. split; [since_tac; reflexivity | reflexivity].
Qed.

Lemma X12_orchestration_update_skipped_for_same_template_witness :
  verdict
    (run (OsOrchestrationStack.update_arm as_written (waiting 120)
            (VStr sample_template) VNone VNone (Some listed_stack))
       (cloud_of_one "teststack")).1 = Some (VBool false).
Proof.
  rewrite (proj1 (X12_orchestration_update_skipped_for_same_template
                    as_written (waiting 120) sample_template VNone VNone
                    (VStr sample_template) listed_stack
                    (settled "id-7" "teststack" (VStr sample_template))
                    (cloud_of_one "teststack")
                    eq_refl eq_refl eq_refl eq_refl eq_refl)).
  reflexivity.
Defined.

(** ** The polling loop: how many turns *)

Lemma wait_while_turns (fuel : nat) (expire : Z) (ip : string)
    (ref_of : stack -> string) (fs : stack) (w : world) :
  (length (since w (run (wait_while fuel expire ip ref_of fs) w).2)
   <= 2 * Z.to_nat ((expire - now w + 1) / 2))%nat.
Proof.
  revert fs w.
  induction fuel as [|fuel IH]; intros fs w;
    cbn [wait_while]; rewrite run_bind, run_time_time;
    destruct (now w <? expire) eqn:Hlt;
    try (simpl; rewrite since_same; simpl; lia);
    destruct (negb _); try (simpl; rewrite since_same; simpl; lia).
  apply Z.ltb_lt in Hlt.
  assert (Hstep : (2 + 2 * Z.to_nat ((expire - (now w + 2) + 1) / 2)
                   <= 2 * Z.to_nat ((expire - now w + 1) / 2))%nat).
  { replace (expire - (now w + 2) + 1) with ((expire - now w + 1) + (-1) * 2)
      by lia.
    rewrite Z.div_add by lia.
    assert (1 <= (expire - now w + 1) / 2)
      by (apply Z.div_le_lower_bound; lia).
    lia. }
  rewrite run_bind, run_time_sleep, run_bind.
  pose proof (run_sdk (heat_stacks_get (ref_of fs)) (tick 2 w)) as Hget.
  match goal with |- context [@run ?T ?p (tick 2 w)] =>
    change (run (sdk (heat_stacks_get (ref_of fs))) (tick 2 w))
      with (@run T p (tick 2 w)) in Hget;
    destruct (@run T p (tick 2 w)) as [[s|e|o] w'] eqn:Hrun
  end.
  - assert (Hw' : w' = answered (heat_stacks_get (ref_of fs)) None
                         (cloud w') (tick 2 w)).
    { destruct (head (faults (tick 2 w))) as [[e|]|]; try discriminate Hget;
        destruct (respond _ _ _) as [[e'|x] r]; try discriminate Hget;
        injection Hget as _ ->; reflexivity. }
    specialize (IH s w').
    destruct (run_trace (wait_while fuel expire ip ref_of s) w')
      as (evs & Hl & _).
    rewrite (since_app _ _ _ Hl) in IH.
    rewrite (since_app w _
               (slept 2 :: called (heat_stacks_get (ref_of fs)) None :: evs)).
    + assert (Hnow : now w' = now w + 2) by (rewrite Hw'; reflexivity).
      rewrite Hnow in IH. simpl length. lia.
    + rewrite Hl, Hw'. simpl. rewrite <- !app_assoc. reflexivity.
  - simpl.
    assert (Hw' : exists r, w' = answered (heat_stacks_get (ref_of fs))
                                   (Some e) r (tick 2 w)).
    { destruct (head (faults (tick 2 w))) as [[e0|]|];
        [injection Hget as -> ->; eauto | |];
        destruct (respond _ _ _) as [[e'|x] r]; try discriminate Hget;
        injection Hget as -> ->; eauto. }
    destruct Hw' as (r & ->).
    rewrite (since_app w _
               [slept 2; called (heat_stacks_get (ref_of fs)) (Some e)]).
    + simpl length. lia.
    + simpl. rewrite <- app_assoc. reflexivity.
  - exfalso.
    destruct (head (faults (tick 2 w))) as [[e0|]|]; try discriminate Hget;
      destruct (respond _ _ _) as [[e'|x] r]; discriminate Hget.
Qed.

(** X8.  The guarded wait makes at most [timeout / 2] turns, rounded up:
    whatever the service answers, its trace holds no more than that many
    sleeps and that many fetches.  (The simulated clock stands still
    during a call; a clock that runs on only ends the wait sooner.) *)
Theorem X8_poll_makes_at_most_half_the_timeout_turns
    (mp : gmap string value) (ip : string) (ref_of : stack -> string)
    (fs : stack) (limit : Z) (w : world) :
  mp !! "timeout" = Some (VInt limit) ->
  (length (since w (run (poll mp ip ref_of fs) w).2)
   <= 2 * Z.to_nat ((limit + 1) / 2))%nat.
Proof.
  intros Ht. unfold poll, getitem.
  destruct (mp !! "wait") as [wt|];
    [|simpl; rewrite since_same; simpl; lia].
  rewrite run_bind. cbn [run].
  destruct (truthy wt); [|simpl; rewrite since_same; simpl; lia].
  rewrite run_bind, run_time_time, Ht. cbn.
  pose proof (wait_while_turns (Z.to_nat (now w + limit - now w))
                (now w + limit) ip ref_of fs w) as H.
  replace (now w + limit - now w + 1) with (limit + 1) in H by lia.
  exact H.
Qed.

Lemma X8_poll_makes_at_most_half_the_timeout_turns_witness :
  (length (since (cloud_building 1000)
             (run (poll (waiting 5) "CREATE_IN_PROGRESS" (fun _ => "id-0")
                     (snapshot 0 (building 1000)))
                (cloud_building 1000)).2) <= 6)%nat.
Proof.
  exact (X8_poll_makes_at_most_half_the_timeout_turns (waiting 5)
           "CREATE_IN_PROGRESS" (fun _ => "id-0") (snapshot 0 (building 1000))
           5 (cloud_building 1000) eq_refl).
Defined.

(** ** os_keystone_service *)

(** X13.  In check mode os_keystone_service asks the service for no
    create and no delete and leaves the cloud as it was, whatever the
    arguments, the services held and the faults. *)
Theorem X13_keystone_check_mode_changes_nothing (h : bool)
    (a : OsKeystoneService.args) (w : world) :
  OsKeystoneService.check_mode a = true ->
  harmless (since w (OsKeystoneService.main h a w).2) /\
  cloud (OsKeystoneService.main h a w).2 = cloud w.
Proof.
  intros Hc.
  change (OsKeystoneService.main h a w)
    with (invoke (os_keystone_service h a) w).
  destruct (framed_since _ w (invoke_framed (os_keystone_service h a)))
    as (_ & -> & -> & _).
  simpl invoke. unfold harmless.
  destruct w as [t fs r lg]. destruct a as [n ty d st ck].
  simpl in Hc. subst ck.
  destruct h; [|split; [constructor | reflexivity]].
  unfold OsKeystoneService.main, try_except, OsKeystoneService.body.
  destruct st; destruct fs as [|[e1|] [|[e2|] fs]]; simpl;
    try (split; [repeat constructor | reflexivity]);
    destruct (find_service n (services r)) as [svc|]; simpl;
    try destruct (OsKeystoneService.compare_services _ _); simpl;
    (split; [repeat constructor | reflexivity]).
Qed.

Lemma X13_keystone_check_mode_changes_nothing_witness :
  cloud (OsKeystoneService.main true (keystone_args absent true)
           (cloud_of_services [glance "id-3" "image" "Glance image service"])).2
    = cloud (cloud_of_services [glance "id-3" "image" "Glance image service"]).
Proof.
  exact (proj2 (X13_keystone_check_mode_changes_nothing true
                  (keystone_args absent true)
                  (cloud_of_services [glance "id-3" "image" "Glance image service"]) eq_refl)).
Defined.

(** X14.  With no fault, the [changed] verdict os_keystone_service
    reports in check mode is the one the same run reports out of check
    mode. *)
Theorem X14_keystone_check_mode_predicts_the_verdict (h : bool)
    (a : OsKeystoneService.args) (w : world) :
  faults w = [] ->
  changed_of (OsKeystoneService.main h (keystone_with_check a true) w).1
    = changed_of (OsKeystoneService.main h (keystone_with_check a false) w).1.
Proof.
  intros Hf. destruct w as [t fs r lg]. simpl in Hf. subst fs.
  destruct a as [n ty d st ck]. destruct h; [|reflexivity].
  unfold OsKeystoneService.main, try_except, OsKeystoneService.body,
    keystone_with_check.
  destruct st; simpl;
    destruct (find_service n (services r)) as [svc|]; simpl;
    try destruct (OsKeystoneService.compare_services _ _); reflexivity.
Qed.

Lemma X14_keystone_check_mode_predicts_the_verdict_witness :
  changed_of
    (OsKeystoneService.main true
       (keystone_with_check (keystone_args absent false) true)
       (cloud_of_services [glance "id-3" "image" "Glance image service"])).1
    = changed_of
        (OsKeystoneService.main true
           (keystone_with_check (keystone_args absent false) false)
           (cloud_of_services [glance "id-3" "image" "Glance image service"])).1.
Proof.
  exact (X14_keystone_check_mode_predicts_the_verdict true
           (keystone_args absent false)
           (cloud_of_services [glance "id-3" "image" "Glance image service"]) eq_refl).
Defined.

(** X15.  [state=present], out of check mode, with no fault and no
    service found: os_keystone_service makes one [create_service] call
    with the wanted name, type and description, and exits with
    [changed=true], [result='created'] and the id of the new service. *)
Theorem X15_keystone_present_creates_a_missing_service
    (a : OsKeystoneService.args) (w : world) :
  OsKeystoneService.state a = present ->
  OsKeystoneService.check_mode a = false ->
  faults w = [] ->
  find_service (OsKeystoneService.name a) (services (cloud w)) = None ->
  (OsKeystoneService.main true a w).1
    = ExitJson [("changed", VBool true); ("result", VStr "created");
                ("id", VStr (fresh_id (next_id (cloud w))))] /\
  since w (OsKeystoneService.main true a w).2
    = [called shade_operator_cloud None;
       called (cloud_get_service (OsKeystoneService.name a)) None;
       called (cloud_create_service (OsKeystoneService.name a)
                 (OsKeystoneService.service_type a)
                 (OsKeystoneService.description a)) None].
Proof.
  intros Hst Hc Hf Hfind. destruct w as [t fs r lg].
  simpl in Hf, Hfind. subst fs.
  unfold OsKeystoneService.main, try_except, OsKeystoneService.body.
  rewrite Hst, Hc. simpl. rewrite Hfind. simpl.
  split; [reflexivity | since_tac; reflexivity].
Qed.

Lemma X15_keystone_present_creates_a_missing_service_witness :
  (OsKeystoneService.main true (keystone_args present false)
     (cloud_of_services [])).1
    = ExitJson [("changed", VBool true); ("result", VStr "created");
                ("id", VStr "id-0")].
Proof.
  rewrite (proj1 (X15_keystone_present_creates_a_missing_service
                    (keystone_args present false) (cloud_of_services [])
                    eq_refl eq_refl eq_refl eq_refl)).
  vm_compute. reflexivity.
Defined.

(** X16.  [state=present] with no fault, when the service found has the
    wanted name, type and description: os_keystone_service exits with
    [changed=false], [result='success'] and the id of the service, after
    [operator_cloud] and [get_service] only, and the cloud is as it
    was. *)
Theorem X16_keystone_present_leaves_a_matching_service
    (a : OsKeystoneService.args) (w : world) (svc : service) :
  OsKeystoneService.state a = present ->
  faults w = [] ->
  find_service (OsKeystoneService.name a) (services (cloud w)) = Some svc ->
  svc_name svc = OsKeystoneService.name a ->
  svc_type svc = OsKeystoneService.service_type a ->
  svc_description svc = OsKeystoneService.description a ->
  (OsKeystoneService.main true a w).1
    = ExitJson [("changed", VBool false); ("result", VStr "success");
                ("id", VStr (svc_id svc))] /\
  since w (OsKeystoneService.main true a w).2
    = [called shade_operator_cloud None;
       called (cloud_get_service (OsKeystoneService.name a)) None] /\
  cloud (OsKeystoneService.main true a w).2 = cloud w.
Proof.
  intros Hst Hf Hfind Hn Ht Hd. destruct w as [t fs r lg].
  simpl in Hf, Hfind. subst fs.
  unfold OsKeystoneService.main, try_except, OsKeystoneService.body.
  rewrite Hst. simpl. rewrite Hfind. simpl.
  unfold OsKeystoneService.compare_services. simpl.
  rewrite Hn, Ht, Hd, !String.eqb_refl. simpl.
  split; [reflexivity|]. split; [since_tac; reflexivity | reflexivity].
Qed.

Lemma X16_keystone_present_leaves_a_matching_service_witness :
  (OsKeystoneService.main true (keystone_args present false)
     (cloud_of_services [glance "id-3" "image" "Glance image service"])).1
    = ExitJson [("changed", VBool false); ("result", VStr "success");
                ("id", VStr "id-3")].
Proof.
  exact (proj1 (X16_keystone_present_leaves_a_matching_service
                  (keystone_args present false)
                  (cloud_of_services [glance "id-3" "image" "Glance image service"])
                  (glance "id-3" "image" "Glance image service")
                  eq_refl eq_refl eq_refl eq_refl eq_refl eq_refl)).
Defined.

(** X17.  [state=absent], out of check mode, with no fault: when a
    service is found, os_keystone_service makes one [delete_service] call
    by the wanted name and exits with [changed=true],
    [result='deleted']; when none is found it exits with
    [changed=false], [result='success'] after the lookup only. *)
Theorem X17_keystone_absent_deletes_what_it_finds
    (a : OsKeystoneService.args) (w : world) :
  OsKeystoneService.state a = absent ->
  OsKeystoneService.check_mode a = false ->
  faults w = [] ->
  match find_service (OsKeystoneService.name a) (services (cloud w)) with
  | Some _ =>
      (OsKeystoneService.main true a w).1
        = ExitJson [("changed", VBool true); ("result", VStr "deleted")] /\
      since w (OsKeystoneService.main true a w).2
        = [called shade_operator_cloud None;
           called (cloud_get_service (OsKeystoneService.name a)) None;
           called (cloud_delete_service (OsKeystoneService.name a)) None]
  | None =>
      (OsKeystoneService.main true a w).1
        = ExitJson [("changed", VBool false); ("result", VStr "success")] /\
      since w (OsKeystoneService.main true a w).2
        = [called shade_operator_cloud None;
           called (cloud_get_service (OsKeystoneService.name a)) None]
  end.
Proof.
  intros Hst Hc Hf. destruct w as [t fs r lg]. simpl in Hf. subst fs.
  unfold OsKeystoneService.main, try_except, OsKeystoneService.body.
  rewrite Hst, Hc. simpl.
  destruct (find_service (OsKeystoneService.name a) (services r)); simpl;
    (split; [reflexivity | since_tac; reflexivity]).
Qed.

Lemma X17_keystone_absent_deletes_what_it_finds_witness :
  (OsKeystoneService.main true (keystone_args absent false)
     (cloud_of_services [glance "id-3" "image" "Glance image service"])).1
    = ExitJson [("changed", VBool true); ("result", VStr "deleted")].
Proof.
  exact (proj1 (X17_keystone_absent_deletes_what_it_finds
                  (keystone_args absent false)
                  (cloud_of_services [glance "id-3" "image" "Glance image service"]) eq_refl eq_refl eq_refl)).
Defined.

Lemma find_service_app (key : string) (l : list service) (s : service) :
  find_service key l = None ->
  find_service key (l ++ [s]) = find_service key [s].
Proof.
  unfold find_service. induction l as [|x l IH]; simpl; [reflexivity|].
  destruct (named_or_id _ _ _); [discriminate | exact IH].
Qed.

Lemma find_service_deleted (key : string) (l : list service) :
  find_service key
    (filter (fun s => named_or_id key (svc_name s) (svc_id s) = false) l)
    = None.
Proof.
  unfold find_service. induction l as [|x l IH]; [reflexivity|].
  rewrite filter_cons. destruct (decide _) as [Hne | _]; [|exact IH].
  simpl. rewrite Hne. exact IH.
Qed.

(** X18.  Two runs of os_keystone_service with [state=present], out of
    check mode, with no fault: whatever the first found and did, the
    second reports [changed=false] and asks for no create and no
    delete. *)
Theorem X18_keystone_present_is_idempotent (a : OsKeystoneService.args)
    (w : world) :
  OsKeystoneService.state a = present ->
  OsKeystoneService.check_mode a = false ->
  faults w = [] ->
  changed_of (twice (OsKeystoneService.main true) a w).1.2
    = Some (VBool false) /\
  harmless (since (OsKeystoneService.main true a w).2
              (twice (OsKeystoneService.main true) a w).2).
Proof.
  intros Hst Hc Hf. destruct w as [t fs r lg]. simpl in Hf. subst fs.
  unfold twice, harmless, OsKeystoneService.main, try_except,
    OsKeystoneService.body.
  rewrite Hst, Hc. simpl.
  destruct (find_service (OsKeystoneService.name a) (services r))
    as [svc|] eqn:Hfind; simpl.
  - destruct (OsKeystoneService.compare_services svc _) eqn:Hcmp; simpl;
      rewrite Hfind; simpl; rewrite Hcmp; simpl;
      (split; [reflexivity | since_tac; repeat constructor]).
  - rewrite (find_service_app _ _ _ Hfind).
    unfold find_service, named_or_id. simpl. rewrite String.eqb_refl. simpl.
    unfold OsKeystoneService.compare_services. simpl.
    rewrite !String.eqb_refl. simpl.
    split; [reflexivity | since_tac; repeat constructor].
Qed.

Lemma X18_keystone_present_is_idempotent_witness :
  changed_of
    (twice (OsKeystoneService.main true) (keystone_args present false)
       (cloud_of_services [])).1.2 = Some (VBool false).
Proof.
  exact (proj1 (X18_keystone_present_is_idempotent
                  (keystone_args present false) (cloud_of_services [])
                  eq_refl eq_refl eq_refl)).
Defined.

(** X19.  Two runs of os_keystone_service with [state=absent], out of
    check mode, with no fault: the second exits with [changed=false],
    [result='success'] and asks for no delete. *)
Theorem X19_keystone_absent_is_idempotent (a : OsKeystoneService.args)
    (w : world) :
  OsKeystoneService.state a = absent ->
  OsKeystoneService.check_mode a = false ->
  faults w = [] ->
  (twice (OsKeystoneService.main true) a w).1.2
    = ExitJson [("changed", VBool false); ("result", VStr "success")] /\
  harmless (since (OsKeystoneService.main true a w).2
              (twice (OsKeystoneService.main true) a w).2).
Proof.
  intros Hst Hc Hf. destruct w as [t fs r lg]. simpl in Hf. subst fs.
  unfold twice, harmless, OsKeystoneService.main, try_except,
    OsKeystoneService.body.
  rewrite Hst, Hc. simpl.
  destruct (find_service (OsKeystoneService.name a) (services r))
    as [svc|] eqn:Hfind; simpl.
  - rewrite find_service_deleted. simpl.
    split; [reflexivity | since_tac; repeat constructor].
  - rewrite Hfind. simpl.
    split; [reflexivity | since_tac; repeat constructor].
Qed.

Lemma X19_keystone_absent_is_idempotent_witness :
  (twice (OsKeystoneService.main true) (keystone_args absent false)
     (cloud_of_services [glance "id-3" "image" "Glance image service"])).1.2
    = ExitJson [("changed", VBool false); ("result", VStr "success")].
Proof.
  exact (proj1 (X19_keystone_absent_is_idempotent
                  (keystone_args absent false)
                  (cloud_of_services [glance "id-3" "image" "Glance image service"]) eq_refl eq_refl eq_refl)).
Defined.

(** ** os_group as the file stands, and what its [try] never asks for *)

(** When the pops of lines 74-76 find their three keys, they hand over
    the values [OsGroup.main] is run on. *)
Lemma os_group_pops_params (a : OsGroup.args) (w : world) :
  run (OsGroup.pops (OsGroup.params a)) w
    = (Returned (VStr (OsGroup.name a),
                 opt_value VStr (OsGroup.description a),
                 VStr (target_str (OsGroup.state a)), ∅), w).
Proof. destruct a as [n d st]. vm_compute. reflexivity. Qed.



(** X21.  Lines 78-105 of os_group.py, on any arguments, cloud and
    faults: a run asks for at most one create, update or delete of a
    group; it asks for a delete only when [state=absent], and for a
    create or an update only when [state=present].  (As the file stands
    the [try] is never entered, and nothing is asked for at all.) *)
Theorem X21_os_group_asks_for_one_change_at_most (h : bool)
    (a : OsGroup.args) (w : world) :
  (length (List.filter mutates (calls_of (since w (OsGroup.main h a w).2)))
   <= 1)%nat /\
  Forall (group_event_for (OsGroup.state a))
    (since w (OsGroup.main h a w).2).
Proof.
  change (OsGroup.main h a w) with (invoke (os_group h a) w).
  destruct (framed_since _ w (invoke_framed (os_group h a)))
    as (_ & -> & _).
  simpl invoke.
  destruct w as [t fs r lg]. destruct a as [n d st].
  destruct h; [|split; [simpl; lia | constructor]].
  unfold OsGroup.main, try_except, OsGroup.body.
  destruct st; destruct fs as [|[e1|] [|[e2|] [|[e3|] fs]]]; simpl;
    try (split; [simpl; lia | repeat constructor]);
    destruct (find_group n (groups r)) as [g|]; simpl;
    try destruct (value_eqb (group_description g) _); simpl;
    (split; [simpl; lia | repeat constructor]).
Qed.

(** ** [_get_heat_client] *)

(** The body of the [try] returns a client only when the three names are
    bound. *)
Lemma connect_returns (E : connectors) (w w' : world) (heat : heat_client) :
  run (connect E) w = (Returned heat, w') ->
  exists ks find build,
    _get_ksclient E = Some ks /\ _get_endpoint E = Some find /\
    client_Client E = Some build.
Proof.
  unfold connect. rewrite run_bind.
  destruct (_get_ksclient E) as [ks|]; [|discriminate].
  cbn [call_global].
  destruct (run ks w) as [[k|e|o] w1]; try discriminate.
  rewrite run_bind.
  destruct (_get_endpoint E) as [find|]; [|discriminate].
  cbn [option_map call_global].
  destruct (run (find k) w1) as [[ep|e|o] w2]; try discriminate.
  destruct (client_Client E) as [build|]; [|discriminate].
  intros _. exists ks, find, build. repeat split.
Qed.

(** X25.  [_get_heat_client], whatever its three callees are bound to
    and do: no exception gets out of it; it returns a client only when
    [_get_ksclient], [_get_endpoint] and [client] are all bound; and
    when [_get_ksclient] is unbound, as in the file, it leaves through
    [fail_json] with [Error in connecting to heat: global name
    '_get_ksclient' is not defined], having asked nothing of the
    cloud. *)
Theorem X25_get_heat_client_lets_no_exception_out (E : connectors)
    (w : world) :
  (forall e, (_get_heat_client E w).1 <> Raised e) /\
  (forall heat,
     (_get_heat_client E w).1 = Returned heat ->
     exists ks find build,
       _get_ksclient E = Some ks /\ _get_endpoint E = Some find /\
       client_Client E = Some build) /\
  (_get_ksclient E = None ->
   _get_heat_client E w
     = (Exited
          {| failed := true;
             kwargs :=
               [("msg",
                 VStr "Error in connecting to heat: global name '_get_ksclient' is not defined")] |},
        w)).
Proof.
  unfold _get_heat_client. repeat split.
  - intros e. destruct (run (connect E) w) as [[x|e0|o] w']; discriminate.
  - intros heat.
    destruct (run (connect E) w) as [[x|e0|o] w'] eqn:Hrun;
      try discriminate.
    intros _. exact (connect_returns E w w' x Hrun).
  - intros Hks. unfold connect. rewrite run_bind, Hks. reflexivity.
Qed.

(** ** Traces of composed programs *)

Lemma events_bind {A B : Type} (P : event -> Prop) (p : prog A)
    (f : A -> prog B) (w : world) :
  Forall P (since w (run p w).2) ->
  (forall a w', run p w = (Returned a, w') ->
     Forall P (since w' (run (f a) w').2)) ->
  Forall P (since w (run (p ≫= f) w).2).
Proof.
  intros Hp Hf. rewrite run_bind.
  destruct (run_trace p w) as (evs1 & Hl1 & _).
  destruct (run p w) as [[a|e|o] w'] eqn:Hrun; simpl in *; try exact Hp.
  specialize (Hf a w' eq_refl).
  destruct (run_trace (f a) w') as (evs2 & Hl2 & _).
  rewrite (since_app _ _ _ Hl1) in Hp. rewrite (since_app _ _ _ Hl2) in Hf.
  rewrite (since_app w _ (evs1 ++ evs2))
    by (rewrite Hl2, Hl1, app_assoc; reflexivity).
  apply Forall_app. split; assumption.
Qed.

Lemma events_sdk (P : event -> Prop) (c : call) (w : world) :
  (forall x, P (called c x)) ->
  Forall P (since w (run (sdk c) w).2).
Proof.
  intros Hc. rewrite run_sdk.
  assert (Hone : forall x r, Forall P (since w (answered c x r w))).
  { intros x r. rewrite (since_app w _ [called c x]) by reflexivity.
    constructor; [apply Hc | constructor]. }
  destruct (head (faults w)) as [[e|]|]; [apply Hone | |];
    destruct (respond c (now w) (cloud w)) as [[e'|x] r]; apply Hone.
Qed.

Lemma try_except_world (p : prog unit) (h : exn -> outcome) (w : world) :
  (try_except p h w).2 = (run p w).2.
Proof. unfold try_except. destruct (run p w) as [[x|e|o] w']; reflexivity. Qed.

Lemma polling_event_keeps_stacks (ev : event) :
  polling_event ev -> keeps_stacks ev.
Proof. intros [-> | (ref & raised & ->)]; exact I. Qed.

Ltac sdk_events :=
  match goal with
  | |- Forall ?P (since ?w (run (sdk ?c) ?w).2) =>
      exact (events_sdk P c w (fun _ => I))
  end.

Lemma orchestration_create_arm_keeps_stacks (G : imports)
    (mp : gmap string value) (tp ps tg : value) (w : world) :
  Forall keeps_stacks
    (since w (run (OsOrchestrationStack.create_arm G mp tp ps tg) w).2).
Proof.
  unfold OsOrchestrationStack.create_arm.
  apply events_bind.
  { unfold read_stack_name. destruct (global_stack_name G); simpl;
      rewrite since_same; constructor. }
  intros sn w1 _. apply events_bind; [sdk_events|].
  intros i w2 _. apply events_bind; [sdk_events|].
  intros fs w3 _. apply events_bind.
  { eapply Forall_impl; [apply poll_events | apply polling_event_keeps_stacks]. }
  intros d w4 _. simpl. rewrite since_same. constructor.
Qed.

Lemma stack_create_arm_keeps_stacks (G : imports) (mp : gmap string value)
    (tf tu fl ps tg : value) (w : world) :
  Forall keeps_stacks
    (since w (run (OsStack.create_arm G mp tf tu fl ps tg) w).2).
Proof.
  unfold OsStack.create_arm.
  apply events_bind; [sdk_events|]. intros [tpl_files template] w0 _.
  apply events_bind.
  { unfold read_stack_name. destruct (global_stack_name G); simpl;
      rewrite since_same; constructor. }
  intros sn w1 _. apply events_bind; [sdk_events|].
  intros i w2 _. apply events_bind; [sdk_events|].
  intros fs w3 _. apply events_bind.
  { eapply Forall_impl; [apply poll_events | apply polling_event_keeps_stacks]. }
  intros d w4 _. simpl. rewrite since_same. constructor.
Qed.

Lemma halts_never_returns {A : Type} (p : prog A) (w : world) (a : A)
    (w' : world) :
  halts_changed (run p w).1 -> run p w = (Returned a, w') -> False.
Proof. intros H Hrun. rewrite Hrun in H. exact H. Qed.

Lemma orchestration_keeps_stacks (G : imports) (a : OsOrchestrationStack.args)
    (w : world) :
  Forall keeps_stacks (since w (OsOrchestrationStack.main G a w).2).
Proof.
  unfold OsOrchestrationStack.main.
  destruct (HAVE_DEPS G); cbn [negb];
    [|simpl; rewrite since_same; constructor].
  rewrite try_except_world, orchestration_body_pops.
  unfold OsOrchestrationStack.reconcile.
  apply events_bind; [sdk_events|]. intros _ w1 _.
  apply events_bind; [sdk_events|]. intros _ w2 _.
  apply events_bind.
  { destruct (set_tenant_id_bound G); [sdk_events|].
    simpl. rewrite since_same. constructor. }
  intros _ w3 _.
  apply events_bind; [sdk_events|]. intros l w4 _.
  destruct (find_stack_popped _ l (orchestration_rest_name a)) as [-> | ->];
    [|rewrite run_bind; simpl; rewrite since_same; constructor].
  change (Ret None ≫= ?f) with (f None). cbn [is_set negb andb].
  destruct (value_eqb _ _); cbn [when andb negb].
  - apply events_bind; [apply orchestration_create_arm_keeps_stacks|].
    intros x w5 Hret. exfalso.
    exact (halts_never_returns _ _ _ _
             (orchestration_create_arm_halts G _ _ _ _ w4) Hret).
  - simpl. rewrite since_same. constructor.
Qed.

Lemma stack_keeps_stacks (G : imports) (a : OsStack.args) (w : world) :
  Forall keeps_stacks (since w (OsStack.main G a w).2).
Proof.
  unfold OsStack.main.
  destruct (HAS_SHADE G); cbn [negb];
    [|simpl; rewrite since_same; constructor].
  rewrite try_except_world, stack_body_pops.
  destruct (OsStack.tags a) as [tg|]; cbn [opt_value];
    [rewrite str_join_strs
    |rewrite run_bind; simpl; rewrite since_same; constructor].
  change (Ret ?x ≫= ?f) with (f x).
  unfold OsStack.reconcile.
  apply events_bind; [sdk_events|]. intros _ w1 _.
  apply events_bind; [sdk_events|]. intros _ w2 _.
  apply events_bind; [sdk_events|]. intros l w4 _.
  destruct (find_stack_popped _ l (stack_rest_name a)) as [-> | ->];
    [|rewrite run_bind; simpl; rewrite since_same; constructor].
  change (Ret None ≫= ?f) with (f None). cbn [is_set negb andb].
  destruct (value_eqb _ _); cbn [when andb negb].
  - apply events_bind.
    + apply events_bind; [apply stack_create_arm_keeps_stacks|].
      intros x w5 Hret. exfalso.
      exact (halts_never_returns _ _ _ _
               (stack_create_arm_halts G _ _ _ _ _ _ w4) Hret).
    + intros x w5 Hret. exfalso.
      rewrite run_bind in Hret.
      pose proof (stack_create_arm_halts G (stack_rest a)
                    (opt_value VStr (OsStack.template_file a))
                    (opt_value VStr (OsStack.template_url a))
                    (strs_value (OsStack.files a))
                    (opt_value dict_value (OsStack.parameters a))
                    (VStr (join "," tg)) w4) as Hh.
      destruct (run (OsStack.create_arm _ _ _ _ _ _ _) w4) as [[y|e|o] w6];
        simpl in Hh; [destruct Hh | discriminate Hret | discriminate Hret].
  - simpl. rewrite since_same. constructor.
Qed.

(** ** Further properties, with their inputs *)

(** X1.  The lookup loop of the Heat modules, given a [module.params]
    that holds [name]: it returns the first stack of the listing whose
    name, lowered, is the wanted name, lowered, and [None] when the
    listing has none. *)
Theorem X1_lookup_returns_first_match (mp : gmap string value) (n : string)
    (l : list stack) :
  mp !! "name" = Some (VStr n) ->
  find_stack mp l =
  Ret (find (fun s => String.eqb (lower (stack_name s)) (lower n)) l).
Proof. apply find_stack_with_name. Qed.

Lemma X1_lookup_returns_first_match_witness :
  find_stack {[ "name" := VStr "TestStack" ]}
    [{| stack_id := "id-6"; stack_name := "other";
        stack_status := "CREATE_COMPLETE" |}; listed_stack;
     {| stack_id := "id-8"; stack_name := "TESTSTACK";
        stack_status := "CREATE_COMPLETE" |}]
    = Ret (Some listed_stack).
Proof.
  rewrite (X1_lookup_returns_first_match _ "TestStack");
    [reflexivity | vm_compute; reflexivity].
Defined.

(** X2.  With at least one stack listed, of any name, a run of either
    Heat module reports neither a success nor a [changed] verdict, asks
    the service for no create, update or delete, and leaves the cloud as
    it was.  (Proved of the files without their unmatched parentheses;
    as they stand, they do not run at all.) *)
Theorem X2_heat_modules_report_nothing_when_a_stack_is_listed (G : imports)
    (a : OsOrchestrationStack.args) (b : OsStack.args) (w : world) :
  stacks (cloud w) <> [] ->
  (reports_nothing (OsOrchestrationStack.main G a w).1 /\
   harmless (since w (OsOrchestrationStack.main G a w).2) /\
   cloud (OsOrchestrationStack.main G a w).2 = cloud w) /\
  (reports_nothing (OsStack.main G b w).1 /\
   harmless (since w (OsStack.main G b w).2) /\
   cloud (OsStack.main G b w).2 = cloud w).
Proof.
  intros Hne. split; (split; [|]).
  - apply fails_reports_nothing, orchestration_listed_fails, Hne.
  - apply orchestration_listed_harmless, Hne.
  - apply fails_reports_nothing, stack_listed_fails, Hne.
  - apply stack_listed_harmless, Hne.
Qed.

Lemma X2_heat_modules_report_nothing_when_a_stack_is_listed_witness :
  changed_of
    (OsStack.main (with_both_names "teststack")
       (stack_args "teststack" absent 120) (cloud_of_one "teststack")).1
    = None /\
  cloud (OsStack.main (with_both_names "teststack")
           (stack_args "teststack" absent 120) (cloud_of_one "teststack")).2
    = cloud (cloud_of_one "teststack").
Proof.
  destruct (X2_heat_modules_report_nothing_when_a_stack_is_listed
              (with_both_names "teststack")
              (orchestration_args "teststack" absent 120)
              (stack_args "teststack" absent 120) (cloud_of_one "teststack"))
    as (_ & (_ & H1) & _ & H2); [discriminate|].
  split; [exact H1 | exact H2].
Defined.

(** X3.  While [stack_name] is unbound, no run of either Heat module asks
    the service for a create, an update or a delete, and the cloud is
    left as it was, whatever the arguments, the listing and the faults. *)
Theorem X3_heat_modules_change_nothing_while_stack_name_is_unbound
    (G : imports) (a : OsOrchestrationStack.args) (b : OsStack.args)
    (w : world) :
  global_stack_name G = None ->
  (harmless (since w (OsOrchestrationStack.main G a w).2) /\
   cloud (OsOrchestrationStack.main G a w).2 = cloud w) /\
  (harmless (since w (OsStack.main G b w).2) /\
   cloud (OsStack.main G b w).2 = cloud w).
Proof.
  intros Hg. split.
  - apply orchestration_unbound_harmless, Hg.
  - apply stack_unbound_harmless, Hg.
Qed.

Lemma X3_heat_modules_change_nothing_while_stack_name_is_unbound_witness :
  cloud (OsOrchestrationStack.main with_tenant_id
           (orchestration_args "teststack" present 120) (empty_cloud 4)).2
    = cloud (empty_cloud 4) /\
  cloud (OsStack.main as_written (stack_args "teststack" present 120)
           (empty_cloud 4)).2
    = cloud (empty_cloud 4).
Proof.
  destruct (X3_heat_modules_change_nothing_while_stack_name_is_unbound
              with_tenant_id (orchestration_args "teststack" present 120)
              (stack_args "teststack" present 120) (empty_cloud 4) eq_refl)
    as ((_ & H1) & _).
  destruct (X3_heat_modules_change_nothing_while_stack_name_is_unbound
              as_written (orchestration_args "teststack" present 120)
              (stack_args "teststack" present 120) (empty_cloud 4) eq_refl)
    as (_ & _ & H2).
  split; [exact H1 | exact H2].
Defined.

(** X4.  A run of either Heat module with [state=present] never reports
    [changed=false], whatever the imports bind, the cloud holds and the
    faults are. *)
Theorem X4_heat_present_run_never_reports_unchanged (G : imports)
    (a : OsOrchestrationStack.args) (b : OsStack.args) (w : world) :
  OsOrchestrationStack.state a = present ->
  OsStack.state b = present ->
  changed_of (OsOrchestrationStack.main G a w).1 <> Some (VBool false) /\
  changed_of (OsStack.main G b w).1 <> Some (VBool false).
Proof.
  intros Ha Hb. split.
  - apply orchestration_present_never_unchanged, Ha.
  - apply stack_present_never_unchanged, Hb.
Qed.

Lemma X4_heat_present_run_never_reports_unchanged_witness :
  changed_of
    (OsOrchestrationStack.main (with_both_names "teststack")
       (orchestration_args "teststack" present 120)
       (cloud_of_one "teststack")).1 <> Some (VBool false) /\
  changed_of
    (OsStack.main (with_both_names "teststack")
       (stack_args "teststack" present 120) (empty_cloud 4)).1
    <> Some (VBool false).
Proof.
  split.
  - exact (proj1 (X4_heat_present_run_never_reports_unchanged
                    (with_both_names "teststack")
                    (orchestration_args "teststack" present 120)
                    (stack_args "teststack" present 120)
                    (cloud_of_one "teststack") eq_refl eq_refl)).
  - exact (proj2 (X4_heat_present_run_never_reports_unchanged
                    (with_both_names "teststack")
                    (orchestration_args "teststack" present 120)
                    (stack_args "teststack" present 120)
                    (empty_cloud 4) eq_refl eq_refl)).
Defined.

(** X5.  os_stack without [tags] (the default, [None]) never gets as far
    as a call: the world is left exactly as it was, trace and clock
    included, and the run reports neither a success nor a [changed]
    verdict ([','.join(None)] at line 142 raises before anything is
    asked of the cloud). *)
Theorem X5_os_stack_without_tags_calls_nothing (G : imports)
    (a : OsStack.args) (w : world) :
  OsStack.tags a = None ->
  (OsStack.main G a w).2 = w /\ reports_nothing (OsStack.main G a w).1.
Proof.
  intros Ht. destruct (stack_without_tags G a w Ht) as [Hw Hf].
  split; [exact Hw | apply fails_reports_nothing, Hf].
Qed.

Lemma X5_os_stack_without_tags_calls_nothing_witness :
  (OsStack.main as_written
     (stack_with (stack_args "teststack" present 120) None None)
     (empty_cloud 4)).2 = empty_cloud 4.
Proof.
  exact (proj1 (X5_os_stack_without_tags_calls_nothing as_written
                  (stack_with (stack_args "teststack" present 120) None None)
                  (empty_cloud 4) eq_refl)).
Defined.

(** X6.  While [stack_name] is unbound, no run of either Heat module
    reports [changed=true], whatever the arguments, the listing and the
    faults: the create arm, the only one that could, reads that name
    before it creates. *)
Theorem X6_heat_modules_never_report_a_change_while_stack_name_is_unbound
    (G : imports) (a : OsOrchestrationStack.args) (b : OsStack.args)
    (w : world) :
  global_stack_name G = None ->
  changed_of (OsOrchestrationStack.main G a w).1 <> Some (VBool true) /\
  changed_of (OsStack.main G b w).1 <> Some (VBool true).
Proof.
  intros Hg. split.
  - apply orchestration_unbound_never_changed, Hg.
  - apply stack_unbound_never_changed, Hg.
Qed.

Lemma X6_heat_modules_never_report_a_change_while_stack_name_is_unbound_witness :
  changed_of
    (OsOrchestrationStack.main with_tenant_id
       (orchestration_args "teststack" present 120) (empty_cloud 4)).1
    <> Some (VBool true) /\
  changed_of
    (OsStack.main as_written (stack_args "teststack" present 120)
       (empty_cloud 4)).1
    <> Some (VBool true).
Proof.
  split.
  - exact (proj1 (X6_heat_modules_never_report_a_change_while_stack_name_is_unbound
                    with_tenant_id
                    (orchestration_args "teststack" present 120)
                    (stack_args "teststack" present 120)
                    (empty_cloud 4) eq_refl)).
  - exact (proj2 (X6_heat_modules_never_report_a_change_while_stack_name_is_unbound
                    as_written
                    (orchestration_args "teststack" present 120)
                    (stack_args "teststack" present 120)
                    (empty_cloud 4) eq_refl)).
Defined.

(** X7.  While [_set_tenant_id] is unbound, no run of
    os_orchestration_stack reports a success or a [changed] verdict, and
    none makes more than two SDK calls: the listing of line 151 is never
    asked for. *)
Theorem X7_orchestration_never_lists_without_set_tenant_id (G : imports)
    (a : OsOrchestrationStack.args) (w : world) :
  set_tenant_id_bound G = false ->
  reports_nothing (OsOrchestrationStack.main G a w).1 /\
  (length (calls_of (since w (OsOrchestrationStack.main G a w).2)) <= 2)%nat /\
  heat_stacks_list ∉ calls_of (since w (OsOrchestrationStack.main G a w).2).
Proof.
  intros Hg.
  destruct (orchestration_unbound_tenant_fails G a w Hg) as [Hf Hl].
  split; [apply fails_reports_nothing, Hf|]. split; [exact Hl|].
  apply orchestration_unbound_tenant_blind, Hg.
Qed.

Lemma X7_orchestration_never_lists_without_set_tenant_id_witness :
  reports_nothing
    (OsOrchestrationStack.main as_written
       (orchestration_args "teststack" absent 120) (empty_cloud 4)).1.
Proof.
  exact (proj1 (X7_orchestration_never_lists_without_set_tenant_id as_written
                  (orchestration_args "teststack" absent 120) (empty_cloud 4)
                  eq_refl)).
Defined.

(** X9.  The guarded wait on a create that is over after [k] sleeps of
    2: when [wait] is on and the timeout is at least [2 * k], and no
    fault occurs, it returns a snapshot whose status is
    [CREATE_COMPLETE]. *)
Theorem X9_poll_sees_the_create_complete (k : nat) (mp : gmap string value)
    (limit : Z) (ref : string) (s : heat_stack) (w : world) :
  faults w = [] ->
  find (refers ref) (stacks (cloud w)) = Some s ->
  hs_action s = "CREATE" ->
  mp !! "wait" = Some (VBool true) ->
  mp !! "timeout" = Some (VInt limit) ->
  hs_ready s <= now w + 2 * Z.of_nat k ->
  2 * Z.of_nat k <= limit ->
  exists d w',
    run (poll mp "CREATE_IN_PROGRESS" (fun _ => ref) (snapshot (now w) s)) w
      = (Returned d, w') /\
    stack_status d = "CREATE_COMPLETE".
Proof. apply poll_completes. Qed.

Lemma X9_poll_sees_the_create_complete_witness :
  exists d w',
    run (poll (waiting 6) "CREATE_IN_PROGRESS" (fun _ => "id-0")
           (snapshot 0 (building 5))) (cloud_building 5) = (Returned d, w') /\
    stack_status d = "CREATE_COMPLETE".
Proof.
  apply (X9_poll_sees_the_create_complete 3 (waiting 6) 6 "id-0" (building 5)
           (cloud_building 5));
    first [reflexivity | simpl; lia].
Defined.

(** X10.  The guarded wait on a create that outlasts the timeout by two
    time units or more: with [wait] on and no fault, it raises nothing
    and returns a snapshot whose status is still
    [CREATE_IN_PROGRESS]. *)
Theorem X10_poll_times_out_in_silence (mp : gmap string value) (limit : Z)
    (ref : string) (s : heat_stack) (w : world) :
  faults w = [] ->
  find (refers ref) (stacks (cloud w)) = Some s ->
  hs_action s = "CREATE" ->
  mp !! "wait" = Some (VBool true) ->
  mp !! "timeout" = Some (VInt limit) ->
  now w < hs_ready s ->
  now w + limit + 2 <= hs_ready s ->
  exists d w',
    run (poll mp "CREATE_IN_PROGRESS" (fun _ => ref) (snapshot (now w) s)) w
      = (Returned d, w') /\
    stack_status d = "CREATE_IN_PROGRESS".
Proof. apply poll_times_out. Qed.

Lemma X10_poll_times_out_in_silence_witness :
  exists d w',
    run (poll (waiting 6) "CREATE_IN_PROGRESS" (fun _ => "id-0")
           (snapshot 0 (building 1000))) (cloud_building 1000)
      = (Returned d, w') /\
    stack_status d = "CREATE_IN_PROGRESS".
Proof.
  apply (X10_poll_times_out_in_silence (waiting 6) 6 "id-0" (building 1000)
           (cloud_building 1000));
    first [reflexivity | simpl; lia].
Defined.

(** X26.  The polling loop stops within [expire - now] turns: unfolded
    that many times or more, it gives one and the same result and
    world. *)
Theorem X26_polling_loop_stops_within_its_budget (fuel : nat) (expire : Z)
    (ip : string) (ref_of : stack -> string) (fs : stack) (w : world) :
  (Z.to_nat (expire - now w) <= fuel)%nat ->
  run (wait_while fuel expire ip ref_of fs) w
    = run (wait_while (Z.to_nat (expire - now w)) expire ip ref_of fs) w.
Proof. intros H. apply wait_while_fuel; lia. Qed.

Lemma X26_polling_loop_stops_within_its_budget_witness :
  run (wait_while 50 6 "CREATE_IN_PROGRESS" (fun _ => "id-0")
         (snapshot 0 (building 1000))) (cloud_building 1000)
    = run (wait_while 6 6 "CREATE_IN_PROGRESS" (fun _ => "id-0")
             (snapshot 0 (building 1000))) (cloud_building 1000).
Proof.
  apply (X26_polling_loop_stops_within_its_budget 50 6 "CREATE_IN_PROGRESS"
           (fun _ => "id-0") (snapshot 0 (building 1000))
           (cloud_building 1000)).
  simpl. lia.
Defined.

(** X11.  Whatever the service answers, the guarded wait leaves in the
    trace only sleeps of 2 and [heat.stacks.get] calls. *)
Theorem X11_poll_only_sleeps_and_fetches (mp : gmap string value) (ip : string)
    (ref_of : stack -> string) (fs : stack) (w : world) :
  Forall polling_event (since w (run (poll mp ip ref_of fs) w).2) /\
  harmless (since w (run (poll mp ip ref_of fs) w).2).
Proof.
  split; [apply poll_events | apply polling_events_harmless, poll_events].
Qed.

(** ** What the Heat modules never ask for *)

(** X28.  Neither Heat module ever issues an update or a delete of a
    stack, whatever the arguments, the imports, the cloud and the
    faults: the arms that would are behind a lookup that fails as soon as
    a stack is listed. *)
Theorem X28_heat_modules_never_update_or_delete (G : imports)
    (a : OsOrchestrationStack.args) (b : OsStack.args) (w : world) :
  Forall keeps_stacks (since w (OsOrchestrationStack.main G a w).2) /\
  Forall keeps_stacks (since w (OsStack.main G b w).2).
Proof.
  split; [apply orchestration_keeps_stacks | apply stack_keeps_stacks].
Qed.
